(** * xDLMS APDU codecs of dlms-cosem: General-Block-Transfer, Set-Request, Set-Response

    Shallow embedding of
      - dlms_cosem/protocol/xdlms/general_block_transfer.py
      - dlms_cosem/protocol/xdlms/set.py
    and the properties of their [from_bytes] / [to_bytes] pairs.

    Python [bytes] / [bytearray] are [list byte]; Python [int] is [Z];
    a raised exception is the [Raise] branch of [outcome]. *)

From Stdlib Require Import ZArith List Bool Lia.
From Stdlib Require Import Init.Byte Strings.Byte.
Import ListNotations.

Local Open Scope Z_scope.

(** ** Exceptions *)

(** The text of an exception, one constructor per [raise] site kind.  The
    numbers are the values interpolated in the f-string. *)
Inductive message : Type :=
| TagNotCorrect (got should_be : Z)
| NotAValidEnumValue (value : Z)
| TypeNotForThisClass
| LastBlockSetInFirstBlock
| BlockNumberShouldBeOne (received : Z)
| OctetStringWrongLength
| SelectiveAccessNotImplemented
| UnsupportedSubtype
| AbstractMethod
| ByteOutOfRange
| CollaboratorError.

Inductive exn : Type :=
| ValueError (m : message)
| NotImplementedError (m : message)
| IndexError
| AssertionError
| OverflowError.

Inductive outcome (A : Type) : Type :=
| Ok (a : A)
| Raise (e : exn).
Arguments Ok {A} a.
Arguments Raise {A} e.

Definition bind {A B : Type} (r : outcome A) (k : A -> outcome B) : outcome B :=
  match r with
  | Ok a => k a
  | Raise e => Raise e
  end.

Declare Scope py_scope.
Delimit Scope py_scope with py.
Notation "x <- r ;; k" := (bind r (fun x => k))
  (at level 61, r at next level, right associativity) : py_scope.
Notation "' p <- r ;; k" := (bind r (fun x => let p := x in k))
  (at level 61, p pattern, r at next level, right associativity) : py_scope.
Local Open Scope py_scope.

(** ** Bytes and integers *)

Definition byte_val (b : byte) : Z := Z.of_N (Byte.to_N b).

Definition byte_of_Z (z : Z) : byte :=
  match Byte.of_N (Z.to_N z) with
  | Some b => b
  | None => x00
  end.

(** [bytearray.pop(0)] *)
Definition pop0 (data : list byte) : outcome (Z * list byte) :=
  match data with
  | [] => Raise IndexError
  | b :: rest => Ok (byte_val b, rest)
  end.

(** [int.from_bytes(bs, "big")] *)
Definition int_from_bytes (bs : list byte) : Z :=
  fold_left (fun acc b => acc * 256 + byte_val b) bs 0.

(** The [n] low base-256 digits of [v], most significant first. *)
Fixpoint be_digits (n : nat) (v : Z) : list byte :=
  match n with
  | O => []
  | S k => be_digits k (v / 256) ++ [byte_of_Z (v mod 256)]
  end.

(** [v.to_bytes(n, "big")] *)
Definition int_to_bytes (v : Z) (n : nat) : outcome (list byte) :=
  if (0 <=? v) && (v <? 256 ^ Z.of_nat n) then Ok (be_digits n v)
  else Raise OverflowError.

(** [bytes([v])] *)
Definition bytes_of_int (v : Z) : outcome (list byte) :=
  if (0 <=? v) && (v <? 256) then Ok [byte_of_Z v]
  else Raise (ValueError ByteOutOfRange).

(** [bool(n)] for an [int] *)
Definition truthy (n : Z) : bool := negb (n =? 0).

Definition is_empty {A : Type} (l : list A) : bool :=
  match l with [] => true | _ => false end.

(** ** general_block_transfer.py *)

Module GeneralBlockTransfer.

Definition TAG : Z := 224.

Record t : Type := Build {
    last_block : bool;
    streaming : bool;
    window : Z;
    block_number : Z;
    block_ack : Z;
    block_data : list byte
  }.

Definition from_bytes (source_bytes : list byte) : outcome t :=
    let data := source_bytes in
    '(tag, data) <- pop0 data ;;
    if negb (tag =? TAG) then Raise (ValueError (TagNotCorrect tag TAG)) else
    '(block_control, data) <- pop0 data ;;
    let last_block := truthy (Z.land block_control 128) in
    let streaming := truthy (Z.land block_control 64) in
    let window := Z.land block_control 63 in
    let block_number := int_from_bytes (firstn 2 data) in
    let data := skipn 2 data in
    let block_ack := int_from_bytes (firstn 2 data) in
    let data := skipn 2 data in
    '(length, data) <- pop0 data ;;
    let block_data := firstn (Z.to_nat length) data in
    let data := skipn (Z.to_nat length) data in
    if negb (is_empty data) then Raise AssertionError else
    Ok (Build last_block streaming window block_number block_ack block_data).

Definition control (self : t) : Z :=
    Z.lor (Z.lor (Z.shiftl (Z.b2z (last_block self)) 7)
                 (Z.shiftl (Z.b2z (streaming self)) 6))
          (window self).

Definition to_bytes (self : t) : outcome (list byte) :=
    ctl <- bytes_of_int (control self) ;;
    bn <- int_to_bytes (block_number self) 2 ;;
    ba <- int_to_bytes (block_ack self) 2 ;;
    ln <- int_to_bytes (Z.of_nat (length (block_data self))) 1 ;;
    Ok ([xe0] ++ ctl ++ bn ++ ba ++ ln ++ block_data self).

End GeneralBlockTransfer.

(** ** External collaborators of set.py *)

(** Modelled from the spec: [enums.SetRequestType] (dlms_cosem/enumerations.py
    is absent).  The type-choice discriminant of the Set-Request family has
    the enumerated values 1..5, numbered as in the CHOICE of the module
    docstring of set.py; set.py itself names NORMAL, WITH_FIRST_BLOCK and
    WITH_BLOCK.  Calling the enumeration on another value raises
    [ValueError]. *)
Module SetRequestType.
Inductive t : Type :=
  | NORMAL | WITH_FIRST_BLOCK | WITH_BLOCK | WITH_LIST | FIRST_BLOCK_WITH_LIST.

Definition value (e : t) : Z :=
    match e with
    | NORMAL => 1 | WITH_FIRST_BLOCK => 2 | WITH_BLOCK => 3
    | WITH_LIST => 4 | FIRST_BLOCK_WITH_LIST => 5
    end.

Definition of_value (v : Z) : outcome t :=
    match v with
    | 1 => Ok NORMAL | 2 => Ok WITH_FIRST_BLOCK | 3 => Ok WITH_BLOCK
    | 4 => Ok WITH_LIST | 5 => Ok FIRST_BLOCK_WITH_LIST
    | _ => Raise (ValueError (NotAValidEnumValue v))
    end.

Definition eqb (a b : t) : bool := value a =? value b.
End SetRequestType.

(** Modelled from the spec: [enums.SetResponseType] (dlms_cosem/enumerations.py
    is absent), values 1..5 numbered as in the CHOICE of the module docstring
    of set.py; set.py names NORMAL, WITH_BLOCK and WITH_LAST_BLOCK. *)
Module SetResponseType.
Inductive t : Type :=
  | NORMAL | WITH_BLOCK | WITH_LAST_BLOCK | LAST_BLOCK_WITH_LIST | WITH_LIST.

Definition value (e : t) : Z :=
    match e with
    | NORMAL => 1 | WITH_BLOCK => 2 | WITH_LAST_BLOCK => 3
    | LAST_BLOCK_WITH_LIST => 4 | WITH_LIST => 5
    end.

Definition of_value (v : Z) : outcome t :=
    match v with
    | 1 => Ok NORMAL | 2 => Ok WITH_BLOCK | 3 => Ok WITH_LAST_BLOCK
    | 4 => Ok LAST_BLOCK_WITH_LIST | 5 => Ok WITH_LIST
    | _ => Raise (ValueError (NotAValidEnumValue v))
    end.

Definition eqb (a b : t) : bool := value a =? value b.
End SetResponseType.

(** Modelled from the spec: [AbstractXDlmsApdu.from_bytes]
    (dlms_cosem/protocol/xdlms/base.py is absent).  The classes of set.py
    whose body is [...] inherit it; the spec says they carry no decode
    behaviour and that a dispatch to one of them reports "not implemented". *)
Definition AbstractXDlmsApdu_from_bytes {A : Type} (source_bytes : list byte)
  : outcome A :=
  Raise (NotImplementedError AbstractMethod).

(** The other collaborators that set.py imports and that are not part of
    these two files are parameters of the development:
    [InvokeIdAndPriority], [cosem.CosemAttribute], [enums.DataAccessResult],
    the selective-access descriptor held by [access_selection], and the
    variable-length integer codec of [dlms_cosem.dlms_data]. *)
Class Externals : Type := {
  InvokeIdAndPriority : Type;
  InvokeIdAndPriority_from_bytes : list byte -> outcome InvokeIdAndPriority;
  InvokeIdAndPriority_to_bytes : InvokeIdAndPriority -> outcome (list byte);

  CosemAttribute : Type;
  CosemAttribute_from_bytes : list byte -> outcome CosemAttribute;
  CosemAttribute_to_bytes : CosemAttribute -> outcome (list byte);

  DataAccessResult : Type;
  (** [enums.DataAccessResult(v)] and [r.value] *)
  DataAccessResult_of_value : Z -> outcome DataAccessResult;
  DataAccessResult_value : DataAccessResult -> Z;

  AccessSelection : Type;
  (** [bool(self.access_selection)] for a value that is not [None] *)
  AccessSelection_truthy : AccessSelection -> bool;
  AccessSelection_to_bytes : AccessSelection -> outcome (list byte);

  decode_variable_integer : list byte -> outcome (Z * list byte);
  encode_variable_integer : Z -> outcome (list byte)
}.

(** [out.append(v)] on a [bytearray] *)
Definition append (out : list byte) (v : Z) : outcome (list byte) :=
  b <- bytes_of_int v ;; Ok (out ++ b).

(** [out.extend(bs)] where evaluating [bs] may raise *)
Definition extend (out : list byte) (bs : outcome (list byte))
  : outcome (list byte) :=
  b <- bs ;; Ok (out ++ b).

(** ** set.py : Set-Request *)

Module SetRequestNormal.
Section WithExternals.
Context {E : Externals}.

Definition TAG : Z := 193.
Definition RESPONSE_TYPE := SetRequestType.NORMAL.

Record t : Type := Build {
    cosem_attribute : CosemAttribute;
    data : list byte;
    access_selection : option AccessSelection;
    invoke_id_and_priority : InvokeIdAndPriority
  }.

Definition from_bytes (source_bytes : list byte) : outcome t :=
    let data := source_bytes in
    '(tag, data) <- pop0 data ;;
    if negb (tag =? TAG) then Raise (ValueError (TagNotCorrect tag TAG)) else
    '(tc, data) <- pop0 data ;;
    type_choice <- SetRequestType.of_value tc ;;
    if negb (SetRequestType.eqb type_choice SetRequestType.NORMAL)
    then Raise (ValueError TypeNotForThisClass) else
    '(iip, data) <- pop0 data ;;
    iip_bytes <- int_to_bytes iip 1 ;;
    invoke_id_and_priority <- InvokeIdAndPriority_from_bytes iip_bytes ;;
    cosem_attribute <- CosemAttribute_from_bytes (firstn 9 data) ;;
    let data := skipn 9 data in
    '(flag, data) <- pop0 data ;;
    let has_access_selection := truthy flag in
    if has_access_selection
    then Raise (NotImplementedError SelectiveAccessNotImplemented) else
    let access_selection := None in
    Ok (Build cosem_attribute data access_selection invoke_id_and_priority).

Definition to_bytes (self : t) : outcome (list byte) :=
    let out := [] in
    out <- append out TAG ;;
    out <- append out (SetRequestType.value RESPONSE_TYPE) ;;
    out <- extend out (InvokeIdAndPriority_to_bytes (invoke_id_and_priority self)) ;;
    out <- extend out (CosemAttribute_to_bytes (cosem_attribute self)) ;;
    out <- match access_selection self with
           | Some a =>
               if AccessSelection_truthy a then
                 out <- extend out (Ok [x01]) ;;
                 extend out (AccessSelection_to_bytes a)
               else extend out (Ok [x00])
           | None => extend out (Ok [x00])
           end ;;
    out <- extend out (Ok (data self)) ;;
    Ok out.
End WithExternals.
End SetRequestNormal.

Module SetRequestWithFirstBlock.
Section WithExternals.
Context {E : Externals}.

Definition TAG : Z := 193.
Definition RESPONSE_TYPE := SetRequestType.WITH_FIRST_BLOCK.

Record t : Type := Build {
    cosem_attribute : CosemAttribute;
    data : list byte;
    access_selection : option AccessSelection;
    invoke_id_and_priority : InvokeIdAndPriority
  }.

Definition from_bytes (source_bytes : list byte) : outcome t :=
    let data := source_bytes in
    '(tag, data) <- pop0 data ;;
    if negb (tag =? TAG) then Raise (ValueError (TagNotCorrect tag TAG)) else
    '(tc, data) <- pop0 data ;;
    type_choice <- SetRequestType.of_value tc ;;
    if negb (SetRequestType.eqb type_choice SetRequestType.WITH_FIRST_BLOCK)
    then Raise (ValueError TypeNotForThisClass) else
    '(iip, data) <- pop0 data ;;
    iip_bytes <- int_to_bytes iip 1 ;;
    invoke_id_and_priority <- InvokeIdAndPriority_from_bytes iip_bytes ;;
    cosem_attribute <- CosemAttribute_from_bytes (firstn 9 data) ;;
    let data := skipn 9 data in
    '(flag, data) <- pop0 data ;;
    let has_access_selection := truthy flag in
    if has_access_selection
    then Raise (NotImplementedError SelectiveAccessNotImplemented) else
    let access_selection := None in
    '(lb, data) <- pop0 data ;;
    let last_block := truthy lb in
    if last_block then Raise (ValueError LastBlockSetInFirstBlock) else
    let block_number := int_from_bytes (firstn 4 data) in
    if negb (block_number =? 1)
    then Raise (ValueError (BlockNumberShouldBeOne block_number)) else
    let data := skipn 4 data in
    '(data_length, data) <- decode_variable_integer data ;;
    if negb (data_length =? Z.of_nat (length data))
    then Raise (ValueError OctetStringWrongLength) else
    Ok (Build cosem_attribute data access_selection invoke_id_and_priority).

Definition to_bytes (self : t) : outcome (list byte) :=
    let out := [] in
    out <- append out TAG ;;
    out <- append out (SetRequestType.value RESPONSE_TYPE) ;;
    out <- extend out (InvokeIdAndPriority_to_bytes (invoke_id_and_priority self)) ;;
    out <- extend out (CosemAttribute_to_bytes (cosem_attribute self)) ;;
    out <- match access_selection self with
           | Some a =>
               if AccessSelection_truthy a then
                 out <- extend out (Ok [x01]) ;;
                 extend out (AccessSelection_to_bytes a)
               else extend out (Ok [x00])
           | None => extend out (Ok [x00])
           end ;;
    out <- append out 0 ;;
    out <- extend out (Ok [x00; x00; x00; x01]) ;;
    out <- extend out (encode_variable_integer (Z.of_nat (length (data self)))) ;;
    out <- extend out (Ok (data self)) ;;
    Ok out.
End WithExternals.
End SetRequestWithFirstBlock.

(** [SetRequestWithBlock], [SetRequestWithList] and
    [SetRequestWithListFirstBlock] have the body [...]: the only
    [from_bytes] they have is the inherited one. *)
Module SetRequestWithBlock.
Inductive t : Type := .
Definition from_bytes (source_bytes : list byte) : outcome t :=
    AbstractXDlmsApdu_from_bytes source_bytes.
End SetRequestWithBlock.

Module SetRequestFactory.
Section WithExternals.
Context {E : Externals}.

Definition TAG : Z := 193.

  (** What [from_bytes] returns: an object of one of the request classes. *)
Inductive apdu : Type :=
  | Normal (x : SetRequestNormal.t)
  | WithFirstBlock (x : SetRequestWithFirstBlock.t)
  | WithBlock (x : SetRequestWithBlock.t).

Definition from_bytes (source_bytes : list byte) : outcome apdu :=
    let data := source_bytes in
    '(tag, data) <- pop0 data ;;
    if negb (tag =? TAG) then Raise (ValueError (TagNotCorrect tag TAG)) else
    '(tc, data) <- pop0 data ;;
    request_type <- SetRequestType.of_value tc ;;
    if SetRequestType.eqb request_type SetRequestType.NORMAL then
      x <- SetRequestNormal.from_bytes source_bytes ;; Ok (Normal x)
    else if SetRequestType.eqb request_type SetRequestType.WITH_FIRST_BLOCK then
      x <- SetRequestWithFirstBlock.from_bytes source_bytes ;; Ok (WithFirstBlock x)
    else if SetRequestType.eqb request_type SetRequestType.WITH_BLOCK then
      x <- SetRequestWithBlock.from_bytes source_bytes ;; Ok (WithBlock x)
    else Raise (NotImplementedError UnsupportedSubtype).

  (** [to_bytes] of whichever object the factory returned. *)
Definition to_bytes (self : apdu) : outcome (list byte) :=
    match self with
    | Normal x => SetRequestNormal.to_bytes x
    | WithFirstBlock x => SetRequestWithFirstBlock.to_bytes x
    | WithBlock x => match x with end
    end.
End WithExternals.
End SetRequestFactory.

(** ** set.py : Set-Response *)

Module SetResponseNormal.
Section WithExternals.
Context {E : Externals}.

Definition TAG : Z := 197.
Definition RESPONSE_TYPE := SetResponseType.NORMAL.

Record t : Type := Build {
    result : DataAccessResult;
    invoke_id_and_priority : InvokeIdAndPriority
  }.

Definition from_bytes (source_bytes : list byte) : outcome t :=
    let data := source_bytes in
    '(tag, data) <- pop0 data ;;
    if negb (tag =? TAG) then Raise (ValueError (TagNotCorrect tag TAG)) else
    '(tc, data) <- pop0 data ;;
    type_choice <- SetResponseType.of_value tc ;;
    if negb (SetResponseType.eqb type_choice SetResponseType.NORMAL)
    then Raise (ValueError TypeNotForThisClass) else
    '(iip, data) <- pop0 data ;;
    iip_bytes <- int_to_bytes iip 1 ;;
    invoke_id_and_priority <- InvokeIdAndPriority_from_bytes iip_bytes ;;
    '(r, data) <- pop0 data ;;
    result <- DataAccessResult_of_value r ;;
    Ok (Build result invoke_id_and_priority).

Definition to_bytes (self : t) : outcome (list byte) :=
    let out := [] in
    out <- append out TAG ;;
    out <- append out (SetResponseType.value RESPONSE_TYPE) ;;
    out <- extend out (InvokeIdAndPriority_to_bytes (invoke_id_and_priority self)) ;;
    out <- append out (DataAccessResult_value (result self)) ;;
    Ok out.
End WithExternals.
End SetResponseNormal.

Module SetResponseWithBlock.
Section WithExternals.
Context {E : Externals}.

Definition TAG : Z := 197.
Definition RESPONSE_TYPE := SetResponseType.WITH_BLOCK.

Record t : Type := Build {
    invoke_id_and_priority : InvokeIdAndPriority;
    block_number : Z
  }.

Definition from_bytes (source_bytes : list byte) : outcome t :=
    let data := source_bytes in
    '(tag, data) <- pop0 data ;;
    if negb (tag =? TAG) then Raise (ValueError (TagNotCorrect tag TAG)) else
    '(tc, data) <- pop0 data ;;
    type_choice <- SetResponseType.of_value tc ;;
    if negb (SetResponseType.eqb type_choice SetResponseType.WITH_BLOCK)
    then Raise (ValueError TypeNotForThisClass) else
    '(iip, data) <- pop0 data ;;
    iip_bytes <- int_to_bytes iip 1 ;;
    invoke_id_and_priority <- InvokeIdAndPriority_from_bytes iip_bytes ;;
    let block_number := int_from_bytes (firstn 4 data) in
    Ok (Build invoke_id_and_priority block_number).

Definition to_bytes (self : t) : outcome (list byte) :=
    let out := [] in
    out <- append out TAG ;;
    out <- append out (SetResponseType.value RESPONSE_TYPE) ;;
    out <- extend out (InvokeIdAndPriority_to_bytes (invoke_id_and_priority self)) ;;
    out <- extend out (int_to_bytes (block_number self) 4) ;;
    Ok out.
End WithExternals.
End SetResponseWithBlock.

Module SetResponseLastBlock.
Section WithExternals.
Context {E : Externals}.

Definition TAG : Z := 197.
Definition RESPONSE_TYPE := SetResponseType.WITH_LAST_BLOCK.

Record t : Type := Build {
    result : DataAccessResult;
    invoke_id_and_priority : InvokeIdAndPriority;
    block_number : Z
  }.

Definition from_bytes (source_bytes : list byte) : outcome t :=
    let data := source_bytes in
    '(tag, data) <- pop0 data ;;
    if negb (tag =? TAG) then Raise (ValueError (TagNotCorrect tag TAG)) else
    '(tc, data) <- pop0 data ;;
    type_choice <- SetResponseType.of_value tc ;;
    if negb (SetResponseType.eqb type_choice SetResponseType.WITH_LAST_BLOCK)
    then Raise (ValueError TypeNotForThisClass) else
    '(iip, data) <- pop0 data ;;
    iip_bytes <- int_to_bytes iip 1 ;;
    invoke_id_and_priority <- InvokeIdAndPriority_from_bytes iip_bytes ;;
    '(r, data) <- pop0 data ;;
    result <- DataAccessResult_of_value r ;;
    let block_number := int_from_bytes (firstn 4 data) in
    Ok (Build result invoke_id_and_priority block_number).

Definition to_bytes (self : t) : outcome (list byte) :=
    let out := [] in
    out <- append out TAG ;;
    out <- append out (SetResponseType.value RESPONSE_TYPE) ;;
    out <- extend out (InvokeIdAndPriority_to_bytes (invoke_id_and_priority self)) ;;
    out <- append out (DataAccessResult_value (result self)) ;;
    out <- extend out (int_to_bytes (block_number self) 4) ;;
    Ok out.
End WithExternals.
End SetResponseLastBlock.

Module SetResponseFactory.
Section WithExternals.
Context {E : Externals}.

Definition TAG : Z := 197.

  (** What [from_bytes] returns: an object of one of the response classes. *)
Inductive apdu : Type :=
  | Normal (x : SetResponseNormal.t)
  | WithBlock (x : SetResponseWithBlock.t)
  | LastBlock (x : SetResponseLastBlock.t).

Definition from_bytes (source_bytes : list byte) : outcome apdu :=
    let data := source_bytes in
    '(tag, data) <- pop0 data ;;
    if negb (tag =? TAG) then Raise (ValueError (TagNotCorrect tag TAG)) else
    '(tc, data) <- pop0 data ;;
    request_type <- SetResponseType.of_value tc ;;
    if SetResponseType.eqb request_type SetResponseType.NORMAL then
      x <- SetResponseNormal.from_bytes source_bytes ;; Ok (Normal x)
    else if SetResponseType.eqb request_type SetResponseType.WITH_BLOCK then
      x <- SetResponseWithBlock.from_bytes source_bytes ;; Ok (WithBlock x)
    else if SetResponseType.eqb request_type SetResponseType.WITH_LAST_BLOCK then
      x <- SetResponseLastBlock.from_bytes source_bytes ;; Ok (LastBlock x)
    else Raise (NotImplementedError UnsupportedSubtype).
End WithExternals.
End SetResponseFactory.

(** ** A reference instance of the external collaborators *)

(** Modelled from the spec: the collaborators that are absent from these two
    files, as far as the spec describes them: the invoke-id-and-priority is a
    single byte, the attribute descriptor is 9 opaque bytes, the
    data-access-result is an enumerated outcome code (the codes of the
    Data-Access-Result of DLMS), and the variable-length integer codec is a
    BER-style length prefix: one byte below 128, otherwise [0x80 + k]
    followed by [k] big-endian bytes.  The theorems below hold for every
    instance of [Externals]; this one instantiates them. *)
Module Reference.

Definition InvokeIdAndPriority_from_bytes (bs : list byte) : outcome byte :=
  match bs with
  | [b] => Ok b
  | _ => Raise (ValueError CollaboratorError)
  end.

Definition CosemAttribute_from_bytes (bs : list byte) : outcome (list byte) :=
  if (length bs =? 9)%nat then Ok bs else Raise (ValueError CollaboratorError).

Inductive DataAccessResult : Type :=
| SUCCESS | HARDWARE_FAULT | TEMPORARY_FAILURE | READ_WRITE_DENIED
| OBJECT_UNDEFINED | OBJECT_CLASS_INCONSISTENT | OBJECT_UNAVAILABLE
| TYPE_UNMATCHED | SCOPE_OF_ACCESS_VIOLATED | DATA_BLOCK_UNAVAILABLE
| LONG_GET_ABORTED | NO_LONG_GET_IN_PROGRESS | LONG_SET_ABORTED
| NO_LONG_SET_IN_PROGRESS | DATA_BLOCK_NUMBER_INVALID | OTHER_REASON.

Definition DataAccessResult_value (r : DataAccessResult) : Z :=
  match r with
  | SUCCESS => 0 | HARDWARE_FAULT => 1 | TEMPORARY_FAILURE => 2
  | READ_WRITE_DENIED => 3 | OBJECT_UNDEFINED => 4
  | OBJECT_CLASS_INCONSISTENT => 9 | OBJECT_UNAVAILABLE => 11
  | TYPE_UNMATCHED => 12 | SCOPE_OF_ACCESS_VIOLATED => 13
  | DATA_BLOCK_UNAVAILABLE => 14 | LONG_GET_ABORTED => 15
  | NO_LONG_GET_IN_PROGRESS => 16 | LONG_SET_ABORTED => 17
  | NO_LONG_SET_IN_PROGRESS => 18 | DATA_BLOCK_NUMBER_INVALID => 19
  | OTHER_REASON => 250
  end.

Definition DataAccessResult_of_value (v : Z) : outcome DataAccessResult :=
  match v with
  | 0 => Ok SUCCESS | 1 => Ok HARDWARE_FAULT | 2 => Ok TEMPORARY_FAILURE
  | 3 => Ok READ_WRITE_DENIED | 4 => Ok OBJECT_UNDEFINED
  | 9 => Ok OBJECT_CLASS_INCONSISTENT | 11 => Ok OBJECT_UNAVAILABLE
  | 12 => Ok TYPE_UNMATCHED | 13 => Ok SCOPE_OF_ACCESS_VIOLATED
  | 14 => Ok DATA_BLOCK_UNAVAILABLE | 15 => Ok LONG_GET_ABORTED
  | 16 => Ok NO_LONG_GET_IN_PROGRESS | 17 => Ok LONG_SET_ABORTED
  | 18 => Ok NO_LONG_SET_IN_PROGRESS | 19 => Ok DATA_BLOCK_NUMBER_INVALID
  | 250 => Ok OTHER_REASON
  | _ => Raise (ValueError (NotAValidEnumValue v))
  end.

Definition decode_variable_integer (bytes_input : list byte)
  : outcome (Z * list byte) :=
  '(b0, rest) <- pop0 bytes_input ;;
  if truthy (Z.land b0 128) then
    let length_length := Z.to_nat (Z.land b0 127) in
    Ok (int_from_bytes (firstn length_length rest), skipn length_length rest)
  else Ok (Z.land b0 127, rest).

(** The least [k' >= k] with [length < 256 ^ k'], looking at most [fuel]
    candidates. *)
Fixpoint encoded_length (fuel k : nat) (length : Z) : nat :=
  match fuel with
  | O => k
  | S f => if length <? 256 ^ Z.of_nat k then k
           else encoded_length f (S k) length
  end.

Definition encode_variable_integer (length : Z) : outcome (list byte) :=
  if 127 <? length then
    let k := encoded_length 127 1 length in
    length_byte <- int_to_bytes (128 + Z.of_nat k) 1 ;;
    bs <- int_to_bytes length k ;;
    Ok (length_byte ++ bs)
  else int_to_bytes length 1.

Definition externals : Externals :=
  Build_Externals
    byte InvokeIdAndPriority_from_bytes (fun b => Ok [b])
    (list byte) CosemAttribute_from_bytes (fun bs => Ok bs)
    DataAccessResult DataAccessResult_of_value DataAccessResult_value
    (list byte) (fun bs => negb (is_empty bs)) (fun bs => Ok bs)
    decode_variable_integer encode_variable_integer.

End Reference.

(** ** Round trips *)

(** [from_bytes(to_bytes(x)) == x]: encoding [x] succeeds and decoding the
    bytes gives [x] back. *)
Definition decodes_back {T : Type} (to_bytes : T -> outcome (list byte))
  (from_bytes : list byte -> outcome T) (x : T) : Prop :=
  exists b, to_bytes x = Ok b /\ from_bytes b = Ok x.

(** [to_bytes(from_bytes(b)) == b]: decoding [b] succeeds and encoding the
    value gives [b] back. *)
Definition encodes_back {T : Type} (to_bytes : T -> outcome (list byte))
  (from_bytes : list byte -> outcome T) (b : list byte) : Prop :=
  exists x, from_bytes b = Ok x /\ to_bytes x = Ok b.

(** The ranges that the TODO of general_block_transfer.py lists, and a
    [block_data] whose length fits the one-byte length field. *)
Definition GeneralBlockTransfer_valid (x : GeneralBlockTransfer.t) : Prop :=
  0 <= GeneralBlockTransfer.window x <= 63 /\
  0 <= GeneralBlockTransfer.block_number x <= 65535 /\
  0 <= GeneralBlockTransfer.block_ack x <= 65535 /\
  (length (GeneralBlockTransfer.block_data x) <= 255)%nat.

(** tag, control, two 2-byte fields, a length byte and exactly that many
    bytes of data. *)
Definition GeneralBlockTransfer_canonical (b : list byte) : Prop :=
  exists c bn ba len d,
    b = xe0 :: c :: bn ++ ba ++ len :: d /\
    length bn = 2%nat /\ length ba = 2%nat /\
    Z.of_nat (length d) = byte_val len.

(** A field held by an external collaborator is in range when the
    collaborator's own codec maps it to the wire bytes and back. *)
Section Validity.
Context {E : Externals}.

Definition InvokeIdAndPriority_agrees (p : InvokeIdAndPriority) (i : byte) : Prop :=
  InvokeIdAndPriority_to_bytes p = Ok [i] /\
  InvokeIdAndPriority_from_bytes [i] = Ok p.

Definition CosemAttribute_agrees (c : CosemAttribute) (a : list byte) : Prop :=
  length a = 9%nat /\
  CosemAttribute_to_bytes c = Ok a /\
  CosemAttribute_from_bytes a = Ok c.

Definition DataAccessResult_agrees (r : DataAccessResult) (v : byte) : Prop :=
  DataAccessResult_value r = byte_val v /\
  DataAccessResult_of_value (byte_val v) = Ok r.

Definition variable_integer_agrees (d pre : list byte) : Prop :=
  encode_variable_integer (Z.of_nat (length d)) = Ok pre /\
  decode_variable_integer (pre ++ d) = Ok (Z.of_nat (length d), d).

Definition SetRequestNormal_valid (x : SetRequestNormal.t) : Prop :=
  SetRequestNormal.access_selection x = None /\
  (exists i, InvokeIdAndPriority_agrees (SetRequestNormal.invoke_id_and_priority x) i) /\
  (exists a, CosemAttribute_agrees (SetRequestNormal.cosem_attribute x) a).

Definition SetRequestNormal_canonical (b : list byte) : Prop :=
  exists i a d p c,
    b = xc1 :: x01 :: i :: a ++ x00 :: d /\
    InvokeIdAndPriority_agrees p i /\ CosemAttribute_agrees c a.

Definition SetRequestWithFirstBlock_valid (x : SetRequestWithFirstBlock.t) : Prop :=
  SetRequestWithFirstBlock.access_selection x = None /\
  (exists i, InvokeIdAndPriority_agrees (SetRequestWithFirstBlock.invoke_id_and_priority x) i) /\
  (exists a, CosemAttribute_agrees (SetRequestWithFirstBlock.cosem_attribute x) a) /\
  (exists pre, variable_integer_agrees (SetRequestWithFirstBlock.data x) pre).

Definition SetRequestWithFirstBlock_canonical (b : list byte) : Prop :=
  exists i a pre d p c,
    b = xc1 :: x02 :: i :: a ++ x00 :: x00 :: [x00; x00; x00; x01] ++ pre ++ d /\
    InvokeIdAndPriority_agrees p i /\ CosemAttribute_agrees c a /\
    variable_integer_agrees d pre.

Definition SetResponseNormal_valid (x : SetResponseNormal.t) : Prop :=
  (exists i, InvokeIdAndPriority_agrees (SetResponseNormal.invoke_id_and_priority x) i) /\
  (exists v, DataAccessResult_agrees (SetResponseNormal.result x) v).

Definition SetResponseNormal_canonical (b : list byte) : Prop :=
  exists i v p r,
    b = [xc5; x01; i; v] /\
    InvokeIdAndPriority_agrees p i /\ DataAccessResult_agrees r v.

Definition SetResponseWithBlock_valid (x : SetResponseWithBlock.t) : Prop :=
  0 <= SetResponseWithBlock.block_number x < 2 ^ 32 /\
  (exists i, InvokeIdAndPriority_agrees (SetResponseWithBlock.invoke_id_and_priority x) i).

Definition SetResponseWithBlock_canonical (b : list byte) : Prop :=
  exists i bn p,
    b = xc5 :: x02 :: i :: bn /\ length bn = 4%nat /\
    InvokeIdAndPriority_agrees p i.

Definition SetResponseLastBlock_valid (x : SetResponseLastBlock.t) : Prop :=
  0 <= SetResponseLastBlock.block_number x < 2 ^ 32 /\
  (exists i, InvokeIdAndPriority_agrees (SetResponseLastBlock.invoke_id_and_priority x) i) /\
  (exists v, DataAccessResult_agrees (SetResponseLastBlock.result x) v).

Definition SetResponseLastBlock_canonical (b : list byte) : Prop :=
  exists i v bn p r,
    b = xc5 :: x03 :: i :: v :: bn /\ length bn = 4%nat /\
    InvokeIdAndPriority_agrees p i /\ DataAccessResult_agrees r v.

End Validity.

(** ** Proof automation *)

(** Evaluate the appends of constants in an encoder. *)
Ltac eval_append :=
  repeat match goal with
  | |- context [append ?o ?v] =>
      let t := eval cbn in (append o v) in
      progress change (append o v) with t; cbn [bind]
  end.

(** Equal lists up to the bracketing of [++]. *)
Ltac list_eq :=
  repeat first [rewrite <- app_assoc | progress (cbn [app])]; reflexivity.

(** A decoder applied to a buffer whose first byte is not its tag;
    [H] says so. *)
Ltac wrong_tag H :=
  cbn [bind pop0];
  match goal with
  | |- context [negb (?t =? ?tag)] =>
      destruct (Z.eqb_spec t tag) as [Heq|_];
      [exfalso; apply H; exact Heq | reflexivity]
  end.

(** A variant decoder on a type-choice byte [tc] outside 1..5 ([H] says so),
    and on one in 1..5 that is not its own ([H] and [H'] say so). *)
Ltac unknown_type H tc :=
  destruct tc; try reflexivity; exfalso; apply H; vm_compute;
  intuition discriminate.

Ltac other_type H H' tc :=
  destruct tc; try reflexivity; exfalso; vm_compute in H, H';
  intuition congruence.

(** A bind that returned [Ok]. *)
Ltac bind_ok H :=
  match type of H with
  | bind ?r _ = Ok _ =>
      let E := fresh "E" in
      destruct r eqn:E; cbn [bind] in H; [|discriminate H]
  end.

(** * Properties *)

(** ** Bytes and big-endian integers *)

Lemma byte_val_range (b : byte) : 0 <= byte_val b < 256.
Proof.
  unfold byte_val. pose proof (Byte.to_N_bounded b). lia.
Qed.

Lemma byte_of_Z_val (b : byte) : byte_of_Z (byte_val b) = b.
Proof.
  unfold byte_of_Z, byte_val. rewrite N2Z.id, Byte.of_to_N. reflexivity.
Qed.

Lemma byte_val_of_Z (z : Z) : 0 <= z < 256 -> byte_val (byte_of_Z z) = z.
Proof.
  intros Hz. unfold byte_of_Z, byte_val.
  destruct (Byte.of_N (Z.to_N z)) as [b|] eqn:Hb.
  - apply Byte.to_of_N in Hb. rewrite Hb. lia.
  - apply Byte.of_N_None_iff in Hb. lia.
Qed.

Lemma byte_val_inj (a b : byte) : byte_val a = byte_val b -> a = b.
Proof.
  intros H. rewrite <- (byte_of_Z_val a), <- (byte_of_Z_val b), H. reflexivity.
Qed.

Lemma int_from_bytes_snoc (l : list byte) (b : byte) :
  int_from_bytes (l ++ [b]) = int_from_bytes l * 256 + byte_val b.
Proof.
  unfold int_from_bytes. rewrite fold_left_app. reflexivity.
Qed.

Lemma int_from_bytes_range (l : list byte) :
  0 <= int_from_bytes l < 256 ^ Z.of_nat (length l).
Proof.
  induction l as [|b l IH] using rev_ind.
  - cbn. lia.
  - rewrite int_from_bytes_snoc, length_app, Nat.add_comm. cbn [length Nat.add].
    rewrite Nat2Z.inj_succ, Z.pow_succ_r by lia.
    pose proof (byte_val_range b). lia.
Qed.

Lemma length_be_digits (n : nat) (v : Z) : length (be_digits n v) = n.
Proof.
  revert v. induction n as [|n IH]; intros v; cbn [be_digits].
  - reflexivity.
  - rewrite length_app, IH. cbn. lia.
Qed.

Lemma int_from_bytes_be_digits (n : nat) (v : Z) :
  0 <= v < 256 ^ Z.of_nat n -> int_from_bytes (be_digits n v) = v.
Proof.
  revert v. induction n as [|n IH]; intros v Hv.
  - cbn in *. lia.
  - cbn [be_digits]. rewrite int_from_bytes_snoc.
    rewrite Nat2Z.inj_succ, Z.pow_succ_r in Hv by lia.
    rewrite IH by (split; [apply Z.div_pos; lia | apply Z.div_lt_upper_bound; lia]).
    rewrite byte_val_of_Z by (apply Z.mod_pos_bound; lia).
    pose proof (Z.div_mod v 256). lia.
Qed.

Lemma be_digits_int_from_bytes (l : list byte) :
  be_digits (length l) (int_from_bytes l) = l.
Proof.
  induction l as [|b l IH] using rev_ind.
  - reflexivity.
  - rewrite length_app, Nat.add_comm. cbn [length Nat.add be_digits].
    rewrite int_from_bytes_snoc.
    pose proof (byte_val_range b).
    replace ((int_from_bytes l * 256 + byte_val b) / 256) with (int_from_bytes l)
      by (apply Z.div_unique with (r := byte_val b); lia).
    replace ((int_from_bytes l * 256 + byte_val b) mod 256) with (byte_val b)
      by (apply Z.mod_unique with (q := int_from_bytes l); lia).
    rewrite IH, byte_of_Z_val. reflexivity.
Qed.

Lemma int_to_bytes_ok (v : Z) (n : nat) :
  0 <= v < 256 ^ Z.of_nat n -> int_to_bytes v n = Ok (be_digits n v).
Proof.
  intros Hv. unfold int_to_bytes.
  destruct (0 <=? v) eqn:H0; [|lia].
  destruct (v <? 256 ^ Z.of_nat n) eqn:H1; [|lia]. reflexivity.
Qed.

Lemma int_to_bytes_from_bytes (l : list byte) :
  int_to_bytes (int_from_bytes l) (length l) = Ok l.
Proof.
  rewrite int_to_bytes_ok by apply int_from_bytes_range.
  rewrite be_digits_int_from_bytes. reflexivity.
Qed.

Lemma int_to_bytes_byte (b : byte) : int_to_bytes (byte_val b) 1 = Ok [b].
Proof.
  exact (int_to_bytes_from_bytes [b]).
Qed.

Lemma int_to_bytes_inv (v : Z) (n : nat) (bs : list byte) :
  int_to_bytes v n = Ok bs ->
  0 <= v < 256 ^ Z.of_nat n /\ bs = be_digits n v.
Proof.
  unfold int_to_bytes.
  destruct (0 <=? v) eqn:H0; [|discriminate].
  destruct (v <? 256 ^ Z.of_nat n) eqn:H1; [|discriminate].
  cbn [andb]. intros H. inversion H.
  apply Z.leb_le in H0. apply Z.ltb_lt in H1. auto.
Qed.

Lemma bytes_of_int_ok (v : Z) :
  0 <= v < 256 -> bytes_of_int v = Ok [byte_of_Z v].
Proof.
  intros Hv. unfold bytes_of_int.
  destruct (0 <=? v) eqn:H0; [|lia].
  destruct (v <? 256) eqn:H1; [|lia]. reflexivity.
Qed.

Lemma bytes_of_int_byte (b : byte) : bytes_of_int (byte_val b) = Ok [b].
Proof.
  rewrite bytes_of_int_ok by apply byte_val_range.
  rewrite byte_of_Z_val. reflexivity.
Qed.

Lemma is_empty_true {A : Type} (l : list A) : is_empty l = true -> l = [].
Proof.
  destruct l; [reflexivity | discriminate].
Qed.

(** ** General-Block-Transfer *)

Lemma control_decode (lb st : bool) (w : Z) :
  0 <= w < 64 ->
  let c := Z.lor (Z.lor (Z.shiftl (Z.b2z lb) 7) (Z.shiftl (Z.b2z st) 6)) w in
  0 <= c < 256 /\ truthy (Z.land c 128) = lb /\
  truthy (Z.land c 64) = st /\ Z.land c 63 = w.
Proof.
  intros Hw.
  assert (Hn : exists n, (n < 64)%nat /\ w = Z.of_nat n)
    by (exists (Z.to_nat w); lia).
  destruct Hn as (n & Hn & ->). clear Hw.
  destruct lb, st;
    do 64 (destruct n as [|n]; [vm_compute; intuition congruence|]); lia.
Qed.

Lemma control_encode (c : byte) :
  let v := byte_val c in
  Z.lor (Z.lor (Z.shiftl (Z.b2z (truthy (Z.land v 128))) 7)
               (Z.shiftl (Z.b2z (truthy (Z.land v 64))) 6))
        (Z.land v 63) = v.
Proof.
  destruct c; reflexivity.
Qed.

Lemma is_empty_skipn {A : Type} (n : nat) (l : list A) :
  is_empty (skipn n l) = (length l <=? n)%nat.
Proof.
  revert l. induction n as [|n IH]; intros [|a l]; cbn; auto.
Qed.

Lemma GeneralBlockTransfer_from_bytes_shape (c b1 b2 a1 a2 len : byte) (d : list byte) :
  GeneralBlockTransfer.from_bytes (xe0 :: c :: b1 :: b2 :: a1 :: a2 :: len :: d) =
  if (length d <=? Z.to_nat (byte_val len))%nat then
    Ok (GeneralBlockTransfer.Build
          (truthy (Z.land (byte_val c) 128)) (truthy (Z.land (byte_val c) 64))
          (Z.land (byte_val c) 63)
          (int_from_bytes [b1; b2]) (int_from_bytes [a1; a2])
          (firstn (Z.to_nat (byte_val len)) d))
  else Raise AssertionError.
Proof.
  unfold GeneralBlockTransfer.from_bytes.
  cbn [bind pop0 firstn skipn].
  change (negb (byte_val xe0 =? GeneralBlockTransfer.TAG)) with false.
  cbv iota. rewrite is_empty_skipn.
  destruct (length d <=? Z.to_nat (byte_val len))%nat; reflexivity.
Qed.

Lemma list_length_1 {A : Type} (l : list A) :
  length l = 1%nat -> exists a, l = [a].
Proof.
  destruct l as [|a [|]]; try discriminate. eauto.
Qed.

Lemma list_length_2 {A : Type} (l : list A) :
  length l = 2%nat -> exists a b, l = [a; b].
Proof.
  destruct l as [|a [|b [|]]]; try discriminate. eauto.
Qed.

Lemma list_length_4 {A : Type} (l : list A) :
  length l = 4%nat -> exists a b c d, l = [a; b; c; d].
Proof.
  destruct l as [|a [|b [|c [|d [|]]]]]; try discriminate. eauto 6.
Qed.

Lemma int_from_bytes_1 (b : byte) : int_from_bytes [b] = byte_val b.
Proof.
  reflexivity.
Qed.

Lemma GeneralBlockTransfer_canonical_round_trip (b : list byte) :
  GeneralBlockTransfer_canonical b ->
  encodes_back GeneralBlockTransfer.to_bytes GeneralBlockTransfer.from_bytes b.
Proof.
  intros (c & bn & ba & len & d & -> & Hbn & Hba & Hlen).
  destruct (list_length_2 _ Hbn) as (b1 & b2 & ->).
  destruct (list_length_2 _ Hba) as (a1 & a2 & ->).
  cbn [app]. eexists. split.
  - rewrite GeneralBlockTransfer_from_bytes_shape.
    replace (length d <=? Z.to_nat (byte_val len))%nat with true
      by (symmetry; apply Nat.leb_le; lia).
    rewrite firstn_all2 by lia. reflexivity.
  - unfold GeneralBlockTransfer.to_bytes, GeneralBlockTransfer.control.
    cbn [GeneralBlockTransfer.last_block GeneralBlockTransfer.streaming
         GeneralBlockTransfer.window GeneralBlockTransfer.block_number
         GeneralBlockTransfer.block_ack GeneralBlockTransfer.block_data].
    rewrite control_encode, bytes_of_int_byte.
    rewrite (int_to_bytes_from_bytes [b1; b2] : int_to_bytes _ 2 = _).
    rewrite (int_to_bytes_from_bytes [a1; a2] : int_to_bytes _ 2 = _).
    rewrite Hlen, int_to_bytes_byte. reflexivity.
Qed.

Lemma GeneralBlockTransfer_to_bytes_canonical (x : GeneralBlockTransfer.t) (b : list byte) :
  GeneralBlockTransfer.to_bytes x = Ok b -> GeneralBlockTransfer_canonical b.
Proof.
  unfold GeneralBlockTransfer.to_bytes.
  destruct (bytes_of_int _) as [ctl|] eqn:Hc; [|discriminate].
  destruct (int_to_bytes _ 2) as [bn|] eqn:Hbn; [|discriminate].
  destruct (int_to_bytes (GeneralBlockTransfer.block_ack x) 2) as [ba|] eqn:Hba; [|discriminate].
  destruct (int_to_bytes _ 1) as [ln|] eqn:Hln; [|discriminate].
  cbn [bind]. intros H. inversion H. subst b. clear H.
  unfold bytes_of_int in Hc.
  destruct (_ && _) in Hc; [|discriminate]. inversion Hc. subst ctl. clear Hc.
  apply int_to_bytes_inv in Hbn, Hba, Hln.
  destruct Hbn as (_ & ->), Hba as (_ & ->), Hln as (Hr & ->).
  exists (byte_of_Z (GeneralBlockTransfer.control x)),
    (be_digits 2 (GeneralBlockTransfer.block_number x)),
    (be_digits 2 (GeneralBlockTransfer.block_ack x)),
    (byte_of_Z (Z.of_nat (length (GeneralBlockTransfer.block_data x)))),
    (GeneralBlockTransfer.block_data x).
  change (256 ^ Z.of_nat 1) with 256 in Hr.
  repeat split; try apply length_be_digits.
  - cbn [be_digits app]. rewrite (Z.mod_small (Z.of_nat _)) by lia. reflexivity.
  - rewrite byte_val_of_Z by lia. reflexivity.
Qed.

Lemma GeneralBlockTransfer_valid_round_trip (x : GeneralBlockTransfer.t) :
  GeneralBlockTransfer_valid x ->
  decodes_back GeneralBlockTransfer.to_bytes GeneralBlockTransfer.from_bytes x.
Proof.
  destruct x as [lb st w bn ba d].
  unfold GeneralBlockTransfer_valid.
  cbn [GeneralBlockTransfer.last_block GeneralBlockTransfer.streaming
       GeneralBlockTransfer.window GeneralBlockTransfer.block_number
       GeneralBlockTransfer.block_ack GeneralBlockTransfer.block_data].
  intros (Hw & Hbn & Hba & Hd).
  destruct (control_decode lb st w ltac:(lia)) as (Hc & Hlb & Hst & Hwin).
  pose proof (length_be_digits 2 bn) as Lbn.
  pose proof (int_from_bytes_be_digits 2 bn ltac:(cbn; lia)) as Vbn.
  pose proof (length_be_digits 2 ba) as Lba.
  pose proof (int_from_bytes_be_digits 2 ba ltac:(cbn; lia)) as Vba.
  pose proof (length_be_digits 1 (Z.of_nat (length d))) as Ld.
  pose proof (int_from_bytes_be_digits 1 (Z.of_nat (length d)) ltac:(cbn; lia)) as Vd.
  unfold decodes_back, GeneralBlockTransfer.to_bytes, GeneralBlockTransfer.control.
  cbn [GeneralBlockTransfer.last_block GeneralBlockTransfer.streaming
       GeneralBlockTransfer.window GeneralBlockTransfer.block_number
       GeneralBlockTransfer.block_ack GeneralBlockTransfer.block_data].
  rewrite bytes_of_int_ok by exact Hc.
  rewrite !int_to_bytes_ok by (cbn; lia).
  destruct (list_length_2 _ Lbn) as (b1 & b2 & Ebn).
  destruct (list_length_2 _ Lba) as (a1 & a2 & Eba).
  destruct (list_length_1 _ Ld) as (l1 & Ed).
  rewrite Ebn in *. rewrite Eba in *. rewrite Ed in *.
  cbn [bind app]. eexists. split; [reflexivity|].
  rewrite GeneralBlockTransfer_from_bytes_shape.
  rewrite int_from_bytes_1 in Vd.
  rewrite byte_val_of_Z by exact Hc.
  replace (length d <=? Z.to_nat (byte_val l1))%nat with true
    by (symmetry; apply Nat.leb_le; lia).
  rewrite firstn_all2 by lia.
  rewrite Hlb, Hst, Hwin, Vbn, Vba. reflexivity.
Qed.

(** ** Set-Request and Set-Response *)

Lemma firstn_length_app {A : Type} (n : nat) (a r : list A) :
  length a = n -> firstn n (a ++ r) = a.
Proof.
  intros <-. rewrite firstn_app, Nat.sub_diag, firstn_all. cbn.
  apply app_nil_r.
Qed.

Lemma skipn_length_app {A : Type} (n : nat) (a r : list A) :
  length a = n -> skipn n (a ++ r) = r.
Proof.
  intros <-. rewrite skipn_app, Nat.sub_diag, skipn_all. reflexivity.
Qed.

Lemma append_byte (out : list byte) (b : byte) :
  append out (byte_val b) = Ok (out ++ [b]).
Proof.
  unfold append. rewrite bytes_of_int_byte. reflexivity.
Qed.

Section SetProperties.
Context {E : Externals}.

(** *** What each decoder does after a correct tag and its own type-choice *)

Lemma SetRequestNormal_from_bytes_body (i : byte) (rest : list byte) :
  SetRequestNormal.from_bytes (xc1 :: x01 :: i :: rest) =
  (invoke_id_and_priority <- InvokeIdAndPriority_from_bytes [i] ;;
   cosem_attribute <- CosemAttribute_from_bytes (firstn 9 rest) ;;
   '(flag, data) <- pop0 (skipn 9 rest) ;;
   if truthy flag
   then Raise (NotImplementedError SelectiveAccessNotImplemented)
   else Ok (SetRequestNormal.Build cosem_attribute data None invoke_id_and_priority)).
Proof.
  unfold SetRequestNormal.from_bytes. cbn [bind pop0].
  change (negb (byte_val xc1 =? SetRequestNormal.TAG)) with false.
  change (SetRequestType.of_value (byte_val x01)) with (Ok SetRequestType.NORMAL).
  cbn [bind].
  change (negb (SetRequestType.eqb SetRequestType.NORMAL SetRequestType.NORMAL))
    with false.
  cbn [bind]. rewrite int_to_bytes_byte. reflexivity.
Qed.

Lemma SetRequestWithFirstBlock_from_bytes_body (i : byte) (rest : list byte) :
  SetRequestWithFirstBlock.from_bytes (xc1 :: x02 :: i :: rest) =
  (invoke_id_and_priority <- InvokeIdAndPriority_from_bytes [i] ;;
   cosem_attribute <- CosemAttribute_from_bytes (firstn 9 rest) ;;
   '(flag, data) <- pop0 (skipn 9 rest) ;;
   if truthy flag
   then Raise (NotImplementedError SelectiveAccessNotImplemented) else
   '(lb, data) <- pop0 data ;;
   if truthy lb then Raise (ValueError LastBlockSetInFirstBlock) else
   if negb (int_from_bytes (firstn 4 data) =? 1)
   then Raise (ValueError (BlockNumberShouldBeOne (int_from_bytes (firstn 4 data))))
   else
   '(data_length, data) <- decode_variable_integer (skipn 4 data) ;;
   if negb (data_length =? Z.of_nat (length data))
   then Raise (ValueError OctetStringWrongLength)
   else Ok (SetRequestWithFirstBlock.Build cosem_attribute data None
              invoke_id_and_priority)).
Proof.
  unfold SetRequestWithFirstBlock.from_bytes. cbn [bind pop0].
  change (negb (byte_val xc1 =? SetRequestWithFirstBlock.TAG)) with false.
  change (SetRequestType.of_value (byte_val x02))
    with (Ok SetRequestType.WITH_FIRST_BLOCK).
  cbn [bind].
  change (negb (SetRequestType.eqb SetRequestType.WITH_FIRST_BLOCK
                  SetRequestType.WITH_FIRST_BLOCK)) with false.
  cbn [bind]. rewrite int_to_bytes_byte. reflexivity.
Qed.

Lemma SetResponseNormal_from_bytes_body (i : byte) (rest : list byte) :
  SetResponseNormal.from_bytes (xc5 :: x01 :: i :: rest) =
  (invoke_id_and_priority <- InvokeIdAndPriority_from_bytes [i] ;;
   '(r, data) <- pop0 rest ;;
   result <- DataAccessResult_of_value r ;;
   Ok (SetResponseNormal.Build result invoke_id_and_priority)).
Proof.
  unfold SetResponseNormal.from_bytes. cbn [bind pop0].
  change (negb (byte_val xc5 =? SetResponseNormal.TAG)) with false.
  change (SetResponseType.of_value (byte_val x01)) with (Ok SetResponseType.NORMAL).
  cbn [bind].
  change (negb (SetResponseType.eqb SetResponseType.NORMAL SetResponseType.NORMAL))
    with false.
  cbn [bind]. rewrite int_to_bytes_byte. reflexivity.
Qed.

Lemma SetResponseWithBlock_from_bytes_body (i : byte) (rest : list byte) :
  SetResponseWithBlock.from_bytes (xc5 :: x02 :: i :: rest) =
  (invoke_id_and_priority <- InvokeIdAndPriority_from_bytes [i] ;;
   Ok (SetResponseWithBlock.Build invoke_id_and_priority
         (int_from_bytes (firstn 4 rest)))).
Proof.
  unfold SetResponseWithBlock.from_bytes. cbn [bind pop0].
  change (negb (byte_val xc5 =? SetResponseWithBlock.TAG)) with false.
  change (SetResponseType.of_value (byte_val x02))
    with (Ok SetResponseType.WITH_BLOCK).
  cbn [bind].
  change (negb (SetResponseType.eqb SetResponseType.WITH_BLOCK
                  SetResponseType.WITH_BLOCK)) with false.
  cbn [bind]. rewrite int_to_bytes_byte. reflexivity.
Qed.

Lemma SetResponseLastBlock_from_bytes_body (i : byte) (rest : list byte) :
  SetResponseLastBlock.from_bytes (xc5 :: x03 :: i :: rest) =
  (invoke_id_and_priority <- InvokeIdAndPriority_from_bytes [i] ;;
   '(r, data) <- pop0 rest ;;
   result <- DataAccessResult_of_value r ;;
   Ok (SetResponseLastBlock.Build result invoke_id_and_priority
         (int_from_bytes (firstn 4 data)))).
Proof.
  unfold SetResponseLastBlock.from_bytes. cbn [bind pop0].
  change (negb (byte_val xc5 =? SetResponseLastBlock.TAG)) with false.
  change (SetResponseType.of_value (byte_val x03))
    with (Ok SetResponseType.WITH_LAST_BLOCK).
  cbn [bind].
  change (negb (SetResponseType.eqb SetResponseType.WITH_LAST_BLOCK
                  SetResponseType.WITH_LAST_BLOCK)) with false.
  cbn [bind]. rewrite int_to_bytes_byte. reflexivity.
Qed.

(** *** Round trips of the variants *)

Lemma SetRequestNormal_canonical_round_trip (b : list byte) :
  SetRequestNormal_canonical b ->
  encodes_back SetRequestNormal.to_bytes SetRequestNormal.from_bytes b.
Proof.
  intros (i & a & d & p & c & -> & (Hp1 & Hp2) & (La & Hc1 & Hc2)).
  exists (SetRequestNormal.Build c d None p). split.
  - rewrite SetRequestNormal_from_bytes_body, Hp2. cbn [bind].
    rewrite firstn_length_app, skipn_length_app by exact La.
    rewrite Hc2. reflexivity.
  - unfold SetRequestNormal.to_bytes.
    cbn [SetRequestNormal.invoke_id_and_priority SetRequestNormal.cosem_attribute
         SetRequestNormal.access_selection SetRequestNormal.data].
    eval_append. rewrite Hp1, Hc1. cbn [extend bind]. f_equal. list_eq.
Qed.

Lemma SetRequestNormal_valid_round_trip (x : SetRequestNormal.t) :
  SetRequestNormal_valid x ->
  decodes_back SetRequestNormal.to_bytes SetRequestNormal.from_bytes x.
Proof.
  destruct x as [c d sel p]. unfold SetRequestNormal_valid.
  cbn [SetRequestNormal.invoke_id_and_priority SetRequestNormal.cosem_attribute
       SetRequestNormal.access_selection SetRequestNormal.data].
  intros (-> & (i & Hp) & (a & Hc)).
  destruct (SetRequestNormal_canonical_round_trip (xc1 :: x01 :: i :: a ++ x00 :: d))
    as (x' & Hdec & Henc).
  { exists i, a, d, p, c. auto. }
  destruct Hp as (Hp1 & Hp2), Hc as (La & Hc1 & Hc2).
  rewrite SetRequestNormal_from_bytes_body, Hp2 in Hdec. cbn [bind] in Hdec.
  rewrite firstn_length_app, skipn_length_app, Hc2 in Hdec by exact La.
  cbn [bind pop0] in Hdec. change (truthy (byte_val x00)) with false in Hdec.
  inversion Hdec. subst x'.
  eexists. split; [exact Henc|].
  rewrite SetRequestNormal_from_bytes_body, Hp2. cbn [bind].
  rewrite firstn_length_app, skipn_length_app, Hc2 by exact La. reflexivity.
Qed.

Lemma SetRequestWithFirstBlock_canonical_round_trip (b : list byte) :
  SetRequestWithFirstBlock_canonical b ->
  encodes_back SetRequestWithFirstBlock.to_bytes SetRequestWithFirstBlock.from_bytes b.
Proof.
  intros (i & a & pre & d & p & c & -> & (Hp1 & Hp2) & (La & Hc1 & Hc2) & (Hv1 & Hv2)).
  exists (SetRequestWithFirstBlock.Build c d None p). split.
  - rewrite SetRequestWithFirstBlock_from_bytes_body, Hp2. cbn [bind].
    rewrite firstn_length_app, skipn_length_app by exact La.
    rewrite Hc2. cbn [bind pop0 app firstn skipn].
    change (truthy (byte_val x00)) with false.
    change (negb (int_from_bytes [x00; x00; x00; x01] =? 1)) with false.
    cbn [bind]. rewrite Hv2. cbn [bind]. rewrite Z.eqb_refl. reflexivity.
  - unfold SetRequestWithFirstBlock.to_bytes.
    cbn [SetRequestWithFirstBlock.invoke_id_and_priority
         SetRequestWithFirstBlock.cosem_attribute
         SetRequestWithFirstBlock.access_selection SetRequestWithFirstBlock.data].
    eval_append. rewrite Hp1, Hc1. cbn [extend bind].
    eval_append. rewrite Hv1. cbn [extend bind]. f_equal. list_eq.
Qed.

Lemma SetRequestWithFirstBlock_valid_round_trip (x : SetRequestWithFirstBlock.t) :
  SetRequestWithFirstBlock_valid x ->
  decodes_back SetRequestWithFirstBlock.to_bytes SetRequestWithFirstBlock.from_bytes x.
Proof.
  destruct x as [c d sel p]. unfold SetRequestWithFirstBlock_valid.
  cbn [SetRequestWithFirstBlock.invoke_id_and_priority
       SetRequestWithFirstBlock.cosem_attribute
       SetRequestWithFirstBlock.access_selection SetRequestWithFirstBlock.data].
  intros (-> & (i & Hp) & (a & Hc) & (pre & Hv)).
  destruct (SetRequestWithFirstBlock_canonical_round_trip
              (xc1 :: x02 :: i :: a ++ x00 :: x00 :: [x00; x00; x00; x01] ++ pre ++ d))
    as (x' & Hdec & Henc).
  { exists i, a, pre, d, p, c. auto. }
  assert (Hx : SetRequestWithFirstBlock.from_bytes
                 (xc1 :: x02 :: i :: a ++ x00 :: x00 :: [x00; x00; x00; x01] ++ pre ++ d)
               = Ok (SetRequestWithFirstBlock.Build c d None p)).
  { destruct Hp as (Hp1 & Hp2), Hc as (La & Hc1 & Hc2), Hv as (Hv1 & Hv2).
    rewrite SetRequestWithFirstBlock_from_bytes_body, Hp2. cbn [bind].
    rewrite firstn_length_app, skipn_length_app by exact La.
    rewrite Hc2. cbn [bind pop0 app firstn skipn].
    change (truthy (byte_val x00)) with false.
    change (negb (int_from_bytes [x00; x00; x00; x01] =? 1)) with false.
    cbn [bind]. rewrite Hv2. cbn [bind]. rewrite Z.eqb_refl. reflexivity. }
  rewrite Hx in Hdec. inversion Hdec. subst x'.
  eexists. split; [exact Henc | exact Hx].
Qed.

Lemma SetResponseNormal_canonical_round_trip (b : list byte) :
  SetResponseNormal_canonical b ->
  encodes_back SetResponseNormal.to_bytes SetResponseNormal.from_bytes b.
Proof.
  intros (i & v & p & r & -> & (Hp1 & Hp2) & (Hr1 & Hr2)).
  exists (SetResponseNormal.Build r p). split.
  - rewrite SetResponseNormal_from_bytes_body, Hp2. cbn [bind pop0].
    rewrite Hr2. reflexivity.
  - unfold SetResponseNormal.to_bytes.
    cbn [SetResponseNormal.invoke_id_and_priority SetResponseNormal.result].
    eval_append. rewrite Hp1. cbn [extend bind].
    rewrite Hr1, append_byte. reflexivity.
Qed.

Lemma SetResponseNormal_valid_round_trip (x : SetResponseNormal.t) :
  SetResponseNormal_valid x ->
  decodes_back SetResponseNormal.to_bytes SetResponseNormal.from_bytes x.
Proof.
  destruct x as [r p]. unfold SetResponseNormal_valid.
  cbn [SetResponseNormal.invoke_id_and_priority SetResponseNormal.result].
  intros ((i & Hp) & (v & Hr)).
  destruct (SetResponseNormal_canonical_round_trip [xc5; x01; i; v])
    as (x' & Hdec & Henc).
  { exists i, v, p, r. auto. }
  assert (Hx : SetResponseNormal.from_bytes [xc5; x01; i; v]
               = Ok (SetResponseNormal.Build r p)).
  { destruct Hp as (Hp1 & Hp2), Hr as (Hr1 & Hr2).
    rewrite SetResponseNormal_from_bytes_body, Hp2. cbn [bind pop0].
    rewrite Hr2. reflexivity. }
  rewrite Hx in Hdec. inversion Hdec. subst x'.
  eexists. split; [exact Henc | exact Hx].
Qed.

Lemma SetResponseWithBlock_canonical_round_trip (b : list byte) :
  SetResponseWithBlock_canonical b ->
  encodes_back SetResponseWithBlock.to_bytes SetResponseWithBlock.from_bytes b.
Proof.
  intros (i & bn & p & -> & Lbn & (Hp1 & Hp2)).
  exists (SetResponseWithBlock.Build p (int_from_bytes bn)). split.
  - rewrite SetResponseWithBlock_from_bytes_body, Hp2. cbn [bind].
    rewrite firstn_all2 by lia. reflexivity.
  - unfold SetResponseWithBlock.to_bytes.
    cbn [SetResponseWithBlock.invoke_id_and_priority SetResponseWithBlock.block_number].
    eval_append. rewrite Hp1. cbn [extend bind].
    rewrite <- Lbn, int_to_bytes_from_bytes. reflexivity.
Qed.

Lemma SetResponseWithBlock_valid_round_trip (x : SetResponseWithBlock.t) :
  SetResponseWithBlock_valid x ->
  decodes_back SetResponseWithBlock.to_bytes SetResponseWithBlock.from_bytes x.
Proof.
  destruct x as [p n]. unfold SetResponseWithBlock_valid.
  cbn [SetResponseWithBlock.invoke_id_and_priority SetResponseWithBlock.block_number].
  intros (Hn & (i & Hp1 & Hp2)).
  assert (Hn' : 0 <= n < 256 ^ Z.of_nat 4) by (change (256 ^ Z.of_nat 4) with (2 ^ 32); lia).
  exists (xc5 :: x02 :: i :: be_digits 4 n). split.
  - unfold SetResponseWithBlock.to_bytes.
    cbn [SetResponseWithBlock.invoke_id_and_priority SetResponseWithBlock.block_number].
    eval_append. rewrite Hp1. cbn [extend bind].
    rewrite int_to_bytes_ok by exact Hn'. reflexivity.
  - rewrite SetResponseWithBlock_from_bytes_body, Hp2. cbn [bind].
    rewrite firstn_all2 by (rewrite length_be_digits; lia).
    rewrite int_from_bytes_be_digits by exact Hn'. reflexivity.
Qed.

Lemma SetResponseLastBlock_canonical_round_trip (b : list byte) :
  SetResponseLastBlock_canonical b ->
  encodes_back SetResponseLastBlock.to_bytes SetResponseLastBlock.from_bytes b.
Proof.
  intros (i & v & bn & p & r & -> & Lbn & (Hp1 & Hp2) & (Hr1 & Hr2)).
  exists (SetResponseLastBlock.Build r p (int_from_bytes bn)). split.
  - rewrite SetResponseLastBlock_from_bytes_body, Hp2. cbn [bind pop0].
    rewrite Hr2. cbn [bind]. rewrite firstn_all2 by lia. reflexivity.
  - unfold SetResponseLastBlock.to_bytes.
    cbn [SetResponseLastBlock.invoke_id_and_priority SetResponseLastBlock.result
         SetResponseLastBlock.block_number].
    eval_append. rewrite Hp1. cbn [extend bind].
    rewrite Hr1, append_byte. cbn [bind].
    rewrite <- Lbn, int_to_bytes_from_bytes. reflexivity.
Qed.

Lemma SetResponseLastBlock_valid_round_trip (x : SetResponseLastBlock.t) :
  SetResponseLastBlock_valid x ->
  decodes_back SetResponseLastBlock.to_bytes SetResponseLastBlock.from_bytes x.
Proof.
  destruct x as [r p n]. unfold SetResponseLastBlock_valid.
  cbn [SetResponseLastBlock.invoke_id_and_priority SetResponseLastBlock.result
       SetResponseLastBlock.block_number].
  intros (Hn & (i & Hp1 & Hp2) & (v & Hr1 & Hr2)).
  assert (Hn' : 0 <= n < 256 ^ Z.of_nat 4) by (change (256 ^ Z.of_nat 4) with (2 ^ 32); lia).
  exists (xc5 :: x03 :: i :: v :: be_digits 4 n). split.
  - unfold SetResponseLastBlock.to_bytes.
    cbn [SetResponseLastBlock.invoke_id_and_priority SetResponseLastBlock.result
         SetResponseLastBlock.block_number].
    eval_append. rewrite Hp1. cbn [extend bind].
    rewrite Hr1, append_byte. cbn [bind].
    rewrite int_to_bytes_ok by exact Hn'. reflexivity.
  - rewrite SetResponseLastBlock_from_bytes_body, Hp2. cbn [bind pop0].
    rewrite Hr2. cbn [bind].
    rewrite firstn_all2 by (rewrite length_be_digits; lia).
    rewrite int_from_bytes_be_digits by exact Hn'. reflexivity.
Qed.

End SetProperties.

(** ** Tag check *)

Section TagCheck.
Context {E : Externals}.

Lemma GeneralBlockTransfer_wrong_tag (t : byte) (rest : list byte) :
  byte_val t <> 224 ->
  GeneralBlockTransfer.from_bytes (t :: rest)
  = Raise (ValueError (TagNotCorrect (byte_val t) 224)).
Proof.
  intros H. unfold GeneralBlockTransfer.from_bytes. wrong_tag H.
Qed.

Lemma SetRequestNormal_wrong_tag (t : byte) (rest : list byte) :
  byte_val t <> 193 ->
  SetRequestNormal.from_bytes (t :: rest)
  = Raise (ValueError (TagNotCorrect (byte_val t) 193)).
Proof.
  intros H. unfold SetRequestNormal.from_bytes. wrong_tag H.
Qed.

Lemma SetRequestWithFirstBlock_wrong_tag (t : byte) (rest : list byte) :
  byte_val t <> 193 ->
  SetRequestWithFirstBlock.from_bytes (t :: rest)
  = Raise (ValueError (TagNotCorrect (byte_val t) 193)).
Proof.
  intros H. unfold SetRequestWithFirstBlock.from_bytes. wrong_tag H.
Qed.

Lemma SetRequestFactory_wrong_tag (t : byte) (rest : list byte) :
  byte_val t <> 193 ->
  SetRequestFactory.from_bytes (t :: rest)
  = Raise (ValueError (TagNotCorrect (byte_val t) 193)).
Proof.
  intros H. unfold SetRequestFactory.from_bytes. wrong_tag H.
Qed.

Lemma SetResponseNormal_wrong_tag (t : byte) (rest : list byte) :
  byte_val t <> 197 ->
  SetResponseNormal.from_bytes (t :: rest)
  = Raise (ValueError (TagNotCorrect (byte_val t) 197)).
Proof.
  intros H. unfold SetResponseNormal.from_bytes. wrong_tag H.
Qed.

Lemma SetResponseWithBlock_wrong_tag (t : byte) (rest : list byte) :
  byte_val t <> 197 ->
  SetResponseWithBlock.from_bytes (t :: rest)
  = Raise (ValueError (TagNotCorrect (byte_val t) 197)).
Proof.
  intros H. unfold SetResponseWithBlock.from_bytes. wrong_tag H.
Qed.

Lemma SetResponseLastBlock_wrong_tag (t : byte) (rest : list byte) :
  byte_val t <> 197 ->
  SetResponseLastBlock.from_bytes (t :: rest)
  = Raise (ValueError (TagNotCorrect (byte_val t) 197)).
Proof.
  intros H. unfold SetResponseLastBlock.from_bytes. wrong_tag H.
Qed.

Lemma SetResponseFactory_wrong_tag (t : byte) (rest : list byte) :
  byte_val t <> 197 ->
  SetResponseFactory.from_bytes (t :: rest)
  = Raise (ValueError (TagNotCorrect (byte_val t) 197)).
Proof.
  intros H. unfold SetResponseFactory.from_bytes. wrong_tag H.
Qed.

End TagCheck.

(** ** The dispatchers *)

Section Dispatch.
Context {E : Externals}.

Lemma SetRequestFactory_normal (rest : list byte) :
  SetRequestFactory.from_bytes (xc1 :: x01 :: rest) =
  (x <- SetRequestNormal.from_bytes (xc1 :: x01 :: rest) ;;
   Ok (SetRequestFactory.Normal x)).
Proof.
  reflexivity.
Qed.

Lemma SetRequestFactory_with_first_block (rest : list byte) :
  SetRequestFactory.from_bytes (xc1 :: x02 :: rest) =
  (x <- SetRequestWithFirstBlock.from_bytes (xc1 :: x02 :: rest) ;;
   Ok (SetRequestFactory.WithFirstBlock x)).
Proof.
  reflexivity.
Qed.

Lemma SetRequestFactory_unknown (tc : byte) (rest : list byte) :
  ~ 1 <= byte_val tc <= 5 ->
  SetRequestFactory.from_bytes (xc1 :: tc :: rest)
  = Raise (ValueError (NotAValidEnumValue (byte_val tc))).
Proof.
  intros H.
  destruct tc; try reflexivity; exfalso; apply H; vm_compute;
    intuition discriminate.
Qed.

Lemma SetRequestFactory_not_implemented (tc : byte) (rest : list byte) :
  3 <= byte_val tc <= 5 ->
  SetRequestFactory.from_bytes (xc1 :: tc :: rest)
  = Raise (NotImplementedError
             (if byte_val tc =? 3 then AbstractMethod else UnsupportedSubtype)).
Proof.
  intros H.
  destruct tc; try reflexivity; exfalso; vm_compute in H;
    intuition congruence.
Qed.

Lemma SetResponseFactory_normal (rest : list byte) :
  SetResponseFactory.from_bytes (xc5 :: x01 :: rest) =
  (x <- SetResponseNormal.from_bytes (xc5 :: x01 :: rest) ;;
   Ok (SetResponseFactory.Normal x)).
Proof.
  reflexivity.
Qed.

Lemma SetResponseFactory_with_block (rest : list byte) :
  SetResponseFactory.from_bytes (xc5 :: x02 :: rest) =
  (x <- SetResponseWithBlock.from_bytes (xc5 :: x02 :: rest) ;;
   Ok (SetResponseFactory.WithBlock x)).
Proof.
  reflexivity.
Qed.

Lemma SetResponseFactory_last_block (rest : list byte) :
  SetResponseFactory.from_bytes (xc5 :: x03 :: rest) =
  (x <- SetResponseLastBlock.from_bytes (xc5 :: x03 :: rest) ;;
   Ok (SetResponseFactory.LastBlock x)).
Proof.
  reflexivity.
Qed.

Lemma SetResponseFactory_unknown (tc : byte) (rest : list byte) :
  ~ 1 <= byte_val tc <= 5 ->
  SetResponseFactory.from_bytes (xc5 :: tc :: rest)
  = Raise (ValueError (NotAValidEnumValue (byte_val tc))).
Proof.
  intros H.
  destruct tc; try reflexivity; exfalso; apply H; vm_compute;
    intuition discriminate.
Qed.

Lemma SetResponseFactory_not_implemented (tc : byte) (rest : list byte) :
  4 <= byte_val tc <= 5 ->
  SetResponseFactory.from_bytes (xc5 :: tc :: rest)
  = Raise (NotImplementedError UnsupportedSubtype).
Proof.
  intros H.
  destruct tc; try reflexivity; exfalso; vm_compute in H;
    intuition congruence.
Qed.

End Dispatch.

(** * The claims *)

(** C1. Round trip.  For each implemented variant, a value whose fields are
    in range ([window] in 0..63, [block_number] and [block_ack] in 0..65535
    and at most 255 bytes of [block_data] for General-Block-Transfer, no
    [access_selection], a 32-bit [block_number] in the responses, fields of
    the external collaborators that their own codecs map to the wire and
    back) is encoded by [to_bytes] to bytes that [from_bytes] decodes to the
    same value; and a canonically encoded buffer of the variant is decoded
    by [from_bytes] to a value that [to_bytes] encodes to the same bytes. *)
Theorem round_trip (E : Externals) :
  (forall x, GeneralBlockTransfer_valid x ->
     decodes_back GeneralBlockTransfer.to_bytes GeneralBlockTransfer.from_bytes x) /\
  (forall b, GeneralBlockTransfer_canonical b ->
     encodes_back GeneralBlockTransfer.to_bytes GeneralBlockTransfer.from_bytes b) /\
  (forall x, SetRequestNormal_valid x ->
     decodes_back SetRequestNormal.to_bytes SetRequestNormal.from_bytes x) /\
  (forall b, SetRequestNormal_canonical b ->
     encodes_back SetRequestNormal.to_bytes SetRequestNormal.from_bytes b) /\
  (forall x, SetRequestWithFirstBlock_valid x ->
     decodes_back SetRequestWithFirstBlock.to_bytes
       SetRequestWithFirstBlock.from_bytes x) /\
  (forall b, SetRequestWithFirstBlock_canonical b ->
     encodes_back SetRequestWithFirstBlock.to_bytes
       SetRequestWithFirstBlock.from_bytes b) /\
  (forall x, SetResponseNormal_valid x ->
     decodes_back SetResponseNormal.to_bytes SetResponseNormal.from_bytes x) /\
  (forall b, SetResponseNormal_canonical b ->
     encodes_back SetResponseNormal.to_bytes SetResponseNormal.from_bytes b) /\
  (forall x, SetResponseWithBlock_valid x ->
     decodes_back SetResponseWithBlock.to_bytes SetResponseWithBlock.from_bytes x) /\
  (forall b, SetResponseWithBlock_canonical b ->
     encodes_back SetResponseWithBlock.to_bytes SetResponseWithBlock.from_bytes b) /\
  (forall x, SetResponseLastBlock_valid x ->
     decodes_back SetResponseLastBlock.to_bytes SetResponseLastBlock.from_bytes x) /\
  (forall b, SetResponseLastBlock_canonical b ->
     encodes_back SetResponseLastBlock.to_bytes SetResponseLastBlock.from_bytes b).
Proof.
  repeat split.
  - apply GeneralBlockTransfer_valid_round_trip.
  - apply GeneralBlockTransfer_canonical_round_trip.
  - apply SetRequestNormal_valid_round_trip.
  - apply SetRequestNormal_canonical_round_trip.
  - apply SetRequestWithFirstBlock_valid_round_trip.
  - apply SetRequestWithFirstBlock_canonical_round_trip.
  - apply SetResponseNormal_valid_round_trip.
  - apply SetResponseNormal_canonical_round_trip.
  - apply SetResponseWithBlock_valid_round_trip.
  - apply SetResponseWithBlock_canonical_round_trip.
  - apply SetResponseLastBlock_valid_round_trip.
  - apply SetResponseLastBlock_canonical_round_trip.
Qed.

(** C2. The literal General-Block-Transfer vector of the test: last_block,
    no streaming, window 3, block number 4, block ack 5 and data "abc" are
    encoded to E0 83 00 04 00 05 03 61 62 63, and these ten bytes are
    decoded to the same fields. *)
Theorem gbt_literal_vector :
  GeneralBlockTransfer.to_bytes
    (GeneralBlockTransfer.Build true false 3 4 5 [x61; x62; x63])
  = Ok [xe0; x83; x00; x04; x00; x05; x03; x61; x62; x63] /\
  GeneralBlockTransfer.from_bytes
    [xe0; x83; x00; x04; x00; x05; x03; x61; x62; x63]
  = Ok (GeneralBlockTransfer.Build true false 3 4 5 [x61; x62; x63]).
Proof.
  split; reflexivity.
Qed.

Lemma round_trip_witness :
  let attr := [x00; x01; x01; x00; x01; x08; x00; xff; x02] in
  let value := [x09; x02; x41; x42] in
  decodes_back GeneralBlockTransfer.to_bytes GeneralBlockTransfer.from_bytes
    (GeneralBlockTransfer.Build true false 3 4 5 [x61; x62; x63]) /\
  encodes_back GeneralBlockTransfer.to_bytes GeneralBlockTransfer.from_bytes
    [xe0; x83; x00; x04; x00; x05; x03; x61; x62; x63] /\
  decodes_back (SetRequestNormal.to_bytes (E := Reference.externals))
    SetRequestNormal.from_bytes
    (SetRequestNormal.Build (E := Reference.externals) attr value None xc1) /\
  encodes_back (SetRequestNormal.to_bytes (E := Reference.externals))
    SetRequestNormal.from_bytes
    (xc1 :: x01 :: xc1 :: attr ++ x00 :: value) /\
  decodes_back (SetRequestWithFirstBlock.to_bytes (E := Reference.externals))
    SetRequestWithFirstBlock.from_bytes
    (SetRequestWithFirstBlock.Build (E := Reference.externals) attr value None xc1) /\
  encodes_back (SetRequestWithFirstBlock.to_bytes (E := Reference.externals))
    SetRequestWithFirstBlock.from_bytes
    (xc1 :: x02 :: xc1 :: attr ++
       x00 :: x00 :: [x00; x00; x00; x01] ++ [x04] ++ value) /\
  decodes_back (SetResponseNormal.to_bytes (E := Reference.externals))
    SetResponseNormal.from_bytes
    (SetResponseNormal.Build (E := Reference.externals) Reference.SUCCESS xc1) /\
  encodes_back (SetResponseNormal.to_bytes (E := Reference.externals))
    SetResponseNormal.from_bytes [xc5; x01; xc1; x00] /\
  decodes_back (SetResponseWithBlock.to_bytes (E := Reference.externals))
    SetResponseWithBlock.from_bytes
    (SetResponseWithBlock.Build (E := Reference.externals) xc1 2) /\
  encodes_back (SetResponseWithBlock.to_bytes (E := Reference.externals))
    SetResponseWithBlock.from_bytes [xc5; x02; xc1; x00; x00; x00; x02] /\
  decodes_back (SetResponseLastBlock.to_bytes (E := Reference.externals))
    SetResponseLastBlock.from_bytes
    (SetResponseLastBlock.Build (E := Reference.externals)
       Reference.SUCCESS xc1 3) /\
  encodes_back (SetResponseLastBlock.to_bytes (E := Reference.externals))
    SetResponseLastBlock.from_bytes
    [xc5; x03; xc1; x00; x00; x00; x00; x03].
Proof.
  intros attr value.
  destruct (round_trip Reference.externals)
    as (G1 & G2 & N1 & N2 & F1 & F2 & R1 & R2 & B1 & B2 & L1 & L2).
  split; [apply G1; unfold GeneralBlockTransfer_valid; cbn; lia|].
  split; [apply G2; exists x83, [x00; x04], [x00; x05], x03, [x61; x62; x63];
          repeat split|].
  split; [apply N1; split; [reflexivity|];
          split; [exists xc1; split; reflexivity
                 |exists attr; repeat split]|].
  split; [apply N2; exists xc1, attr, value, xc1, attr; repeat split|].
  split; [apply F1; split; [reflexivity|];
          split; [exists xc1; split; reflexivity|];
          split; [exists attr; repeat split
                 |exists [x04]; split; reflexivity]|].
  split; [apply F2; exists xc1, attr, [x04], value, xc1, attr; repeat split|].
  split; [apply R1; split; [exists xc1|exists x00]; split; reflexivity|].
  split; [apply R2; exists xc1, x00, xc1, Reference.SUCCESS; repeat split|].
  split; [apply B1; split; [cbn; lia|exists xc1; split; reflexivity]|].
  split; [apply B2; exists xc1, [x00; x00; x00; x02], xc1; repeat split|].
  split; [apply L1; split; [cbn; lia|];
          split; [exists xc1|exists x00]; split; reflexivity|].
  apply L2. exists xc1, x00, [x00; x00; x00; x03], xc1, Reference.SUCCESS.
  repeat split.
Defined.

(** *** Length fields *)

Lemma GeneralBlockTransfer_trailing_data_fails
  (c b1 b2 a1 a2 len : byte) (d : list byte) :
  byte_val len < Z.of_nat (length d) ->
  GeneralBlockTransfer.from_bytes (xe0 :: c :: b1 :: b2 :: a1 :: a2 :: len :: d)
  = Raise AssertionError.
Proof.
  intros H. rewrite GeneralBlockTransfer_from_bytes_shape.
  pose proof (byte_val_range len).
  destruct (Nat.leb_spec (length d) (Z.to_nat (byte_val len))); [lia|reflexivity].
Qed.

Lemma GeneralBlockTransfer_shortfall_accepted
  (c b1 b2 a1 a2 len : byte) (d : list byte) :
  Z.of_nat (length d) < byte_val len ->
  GeneralBlockTransfer.from_bytes (xe0 :: c :: b1 :: b2 :: a1 :: a2 :: len :: d)
  = Ok (GeneralBlockTransfer.Build
          (truthy (Z.land (byte_val c) 128)) (truthy (Z.land (byte_val c) 64))
          (Z.land (byte_val c) 63)
          (int_from_bytes [b1; b2]) (int_from_bytes [a1; a2]) d).
Proof.
  intros H. rewrite GeneralBlockTransfer_from_bytes_shape.
  destruct (Nat.leb_spec (length d) (Z.to_nat (byte_val len))); [|lia].
  rewrite firstn_all2 by lia. reflexivity.
Qed.

Lemma SetRequestWithFirstBlock_length_mismatch_fails {E : Externals}
  (i : byte) (a bn tail d : list byte) (p : InvokeIdAndPriority)
  (c : CosemAttribute) (n : Z) :
  length a = 9%nat ->
  InvokeIdAndPriority_from_bytes [i] = Ok p ->
  CosemAttribute_from_bytes a = Ok c ->
  length bn = 4%nat -> int_from_bytes bn = 1 ->
  decode_variable_integer tail = Ok (n, d) ->
  n <> Z.of_nat (length d) ->
  SetRequestWithFirstBlock.from_bytes
    (xc1 :: x02 :: i :: a ++ x00 :: x00 :: bn ++ tail)
  = Raise (ValueError OctetStringWrongLength).
Proof.
  intros La Hp Hc Lbn Hbn Hd Hn.
  rewrite SetRequestWithFirstBlock_from_bytes_body, Hp. cbn [bind].
  rewrite firstn_length_app, skipn_length_app by exact La.
  rewrite Hc. cbn [bind pop0].
  change (truthy (byte_val x00)) with false. cbn [bind].
  rewrite firstn_length_app, skipn_length_app by exact Lbn.
  rewrite Hbn. change (negb (1 =? 1)) with false. cbn [bind].
  rewrite Hd. cbn [bind].
  destruct (Z.eqb_spec n (Z.of_nat (length d))); [contradiction|reflexivity].
Qed.

(** C3. Length agreement.  A General-Block-Transfer buffer whose length byte
    announces five bytes of data but that carries only three is decoded
    without failure, to a value holding the three bytes: the shortfall is
    not detected, while the claim has it fail.  (Leftover bytes do fail, see
    [GeneralBlockTransfer_trailing_data_fails], and so does a wrong length
    prefix in SetRequestWithFirstBlock, see
    [SetRequestWithFirstBlock_length_mismatch_fails].) *)
Theorem gbt_shortfall_is_not_detected :
  GeneralBlockTransfer.from_bytes
    [xe0; x83; x00; x04; x00; x05; x05; x61; x62; x63]
  = Ok (GeneralBlockTransfer.Build true false 3 4 5 [x61; x62; x63]).
Proof.
  reflexivity.
Qed.

(** C4. Tag rejection.  When the first byte of a buffer is not the tag of
    the family (224 for General-Block-Transfer, 193 for Set-Request, 197
    for Set-Response), every decoder of the family, the factories included,
    raises the tag error, whatever follows the first byte and whatever the
    external collaborators do: nothing after the first byte is read. *)
Theorem tag_rejection (E : Externals) (t : byte) (rest : list byte) :
  (byte_val t <> 224 ->
   GeneralBlockTransfer.from_bytes (t :: rest)
   = Raise (ValueError (TagNotCorrect (byte_val t) 224))) /\
  (byte_val t <> 193 ->
   SetRequestNormal.from_bytes (t :: rest)
   = Raise (ValueError (TagNotCorrect (byte_val t) 193)) /\
   SetRequestWithFirstBlock.from_bytes (t :: rest)
   = Raise (ValueError (TagNotCorrect (byte_val t) 193)) /\
   SetRequestFactory.from_bytes (t :: rest)
   = Raise (ValueError (TagNotCorrect (byte_val t) 193))) /\
  (byte_val t <> 197 ->
   SetResponseNormal.from_bytes (t :: rest)
   = Raise (ValueError (TagNotCorrect (byte_val t) 197)) /\
   SetResponseWithBlock.from_bytes (t :: rest)
   = Raise (ValueError (TagNotCorrect (byte_val t) 197)) /\
   SetResponseLastBlock.from_bytes (t :: rest)
   = Raise (ValueError (TagNotCorrect (byte_val t) 197)) /\
   SetResponseFactory.from_bytes (t :: rest)
   = Raise (ValueError (TagNotCorrect (byte_val t) 197))).
Proof.
  split; [|split]; intros H.
  - apply GeneralBlockTransfer_wrong_tag, H.
  - auto using SetRequestNormal_wrong_tag, SetRequestWithFirstBlock_wrong_tag,
      SetRequestFactory_wrong_tag.
  - auto using SetResponseNormal_wrong_tag, SetResponseWithBlock_wrong_tag,
      SetResponseLastBlock_wrong_tag, SetResponseFactory_wrong_tag.
Qed.

Lemma tag_rejection_witness :
  let rest := [x01; xc1; x00; x01; x01; x00; x01; x08; x00; xff; x02; x00; x09] in
  GeneralBlockTransfer.from_bytes (x01 :: rest)
  = Raise (ValueError (TagNotCorrect 1 224)) /\
  SetRequestNormal.from_bytes (E := Reference.externals) (x01 :: rest)
  = Raise (ValueError (TagNotCorrect 1 193)) /\
  SetRequestFactory.from_bytes (E := Reference.externals) (x01 :: rest)
  = Raise (ValueError (TagNotCorrect 1 193)) /\
  SetResponseFactory.from_bytes (E := Reference.externals) (x01 :: rest)
  = Raise (ValueError (TagNotCorrect 1 197)).
Proof.
  intros rest.
  destruct (tag_rejection Reference.externals x01 rest) as (G & Q & R).
  destruct Q as (Q1 & Q2 & Q3); [cbn; lia|].
  destruct R as (R1 & R2 & R3 & R4); [cbn; lia|].
  split; [apply G; cbn; lia|].
  split; [exact Q1|]. split; [exact Q3|exact R4].
Defined.

(** *** Inversion of a successful decode *)

Lemma truthy_byte_false (b : byte) : truthy (byte_val b) = false -> b = x00.
Proof.
  unfold truthy. intros H. apply negb_false_iff, Z.eqb_eq in H.
  apply byte_val_inj. exact H.
Qed.

Lemma truthy_byte_true (b : byte) : byte_val b <> 0 -> truthy (byte_val b) = true.
Proof.
  unfold truthy. intros H. apply negb_true_iff, Z.eqb_neq. exact H.
Qed.

Lemma pop0_skipn_inv (n : nat) (l d : list byte) (v : Z) :
  pop0 (skipn n l) = Ok (v, d) ->
  exists b, v = byte_val b /\ l = firstn n l ++ b :: d /\ length (firstn n l) = n.
Proof.
  intros H. destruct (skipn n l) as [|b d'] eqn:Hs; [discriminate|].
  cbn in H. inversion H. subst. exists b. split; [reflexivity|].
  pose proof (firstn_skipn n l) as Hl. rewrite Hs in Hl.
  split; [symmetry; exact Hl|].
  apply firstn_length_le.
  pose proof (length_skipn n l) as Hk. rewrite Hs in Hk. cbn in Hk. lia.
Qed.

Section Inversion.
Context {E : Externals}.

Lemma SetRequestNormal_from_bytes_head (b : list byte) (x : SetRequestNormal.t) :
  SetRequestNormal.from_bytes b = Ok x ->
  exists i rest, b = xc1 :: x01 :: i :: rest.
Proof.
  unfold SetRequestNormal.from_bytes. intros H.
  destruct b as [|t b]; [discriminate|]. cbn [bind pop0] in H.
  destruct (Z.eqb_spec (byte_val t) SetRequestNormal.TAG) as [Ht|]; [|discriminate].
  apply (byte_val_inj t xc1) in Ht. subst t. cbn [negb] in H.
  destruct b as [|tc b]; [discriminate|]. cbn [bind pop0] in H.
  assert (tc = x01) by (destruct tc; try reflexivity; discriminate H).
  subst tc. destruct b as [|i rest]; [discriminate|]. eauto.
Qed.

Lemma SetRequestWithFirstBlock_from_bytes_head
  (b : list byte) (x : SetRequestWithFirstBlock.t) :
  SetRequestWithFirstBlock.from_bytes b = Ok x ->
  exists i rest, b = xc1 :: x02 :: i :: rest.
Proof.
  unfold SetRequestWithFirstBlock.from_bytes. intros H.
  destruct b as [|t b]; [discriminate|]. cbn [bind pop0] in H.
  destruct (Z.eqb_spec (byte_val t) SetRequestWithFirstBlock.TAG) as [Ht|];
    [|discriminate].
  apply (byte_val_inj t xc1) in Ht. subst t. cbn [negb] in H.
  destruct b as [|tc b]; [discriminate|]. cbn [bind pop0] in H.
  assert (tc = x02) by (destruct tc; try reflexivity; discriminate H).
  subst tc. destruct b as [|i rest]; [discriminate|]. eauto.
Qed.

End Inversion.

(** C5. Field invariants of SetRequestWithFirstBlock.  On a buffer with the
    Set-Request tag, type-choice 2, an invoke-id byte and a 9-byte attribute
    descriptor that the collaborators decode, and no selective access: a
    last-block byte other than zero raises the last-block error, and, with
    last-block zero, a block number other than 1 raises the block-number
    error; both are raised before the length prefix is looked at, and they
    are not the error of a wrong length or of a missing byte.  Conversely,
    every buffer that [from_bytes] decodes to a value has last-block zero
    and block number 1. *)
Theorem with_first_block_invariants (E : Externals) :
  (forall (i lb : byte) (a rest : list byte)
          (p : InvokeIdAndPriority) (c : CosemAttribute),
     length a = 9%nat ->
     InvokeIdAndPriority_from_bytes [i] = Ok p ->
     CosemAttribute_from_bytes a = Ok c ->
     (byte_val lb <> 0 ->
      SetRequestWithFirstBlock.from_bytes
        (xc1 :: x02 :: i :: a ++ x00 :: lb :: rest)
      = Raise (ValueError LastBlockSetInFirstBlock)) /\
     (int_from_bytes (firstn 4 rest) <> 1 ->
      SetRequestWithFirstBlock.from_bytes
        (xc1 :: x02 :: i :: a ++ x00 :: x00 :: rest)
      = Raise (ValueError
                 (BlockNumberShouldBeOne (int_from_bytes (firstn 4 rest)))))) /\
  (forall (b : list byte) (x : SetRequestWithFirstBlock.t),
     SetRequestWithFirstBlock.from_bytes b = Ok x ->
     exists i a rest,
       b = xc1 :: x02 :: i :: a ++ x00 :: x00 :: rest /\
       length a = 9%nat /\ int_from_bytes (firstn 4 rest) = 1).
Proof.
  split.
  - intros i lb a rest p c La Hp Hc. split; intros H.
    + rewrite SetRequestWithFirstBlock_from_bytes_body, Hp. cbn [bind].
      rewrite firstn_length_app, skipn_length_app by exact La.
      rewrite Hc. cbn [bind pop0].
      change (truthy (byte_val x00)) with false. cbn [bind].
      rewrite truthy_byte_true by exact H. reflexivity.
    + rewrite SetRequestWithFirstBlock_from_bytes_body, Hp. cbn [bind].
      rewrite firstn_length_app, skipn_length_app by exact La.
      rewrite Hc. cbn [bind pop0].
      change (truthy (byte_val x00)) with false. cbn [bind].
      destruct (Z.eqb_spec (int_from_bytes (firstn 4 rest)) 1);
        [contradiction|reflexivity].
  - intros b x H.
    destruct (SetRequestWithFirstBlock_from_bytes_head b x H) as (i & r & ->).
    rewrite SetRequestWithFirstBlock_from_bytes_body in H.
    destruct (InvokeIdAndPriority_from_bytes [i]) as [p|]; [|discriminate].
    cbn [bind] in H.
    destruct (CosemAttribute_from_bytes (firstn 9 r)) as [c|]; [|discriminate].
    cbn [bind] in H.
    destruct (pop0 (skipn 9 r)) as [[flag d]|] eqn:Hflag; [|discriminate].
    cbn [bind] in H.
    destruct (pop0_skipn_inv _ _ _ _ Hflag) as (fb & -> & Hr & La).
    destruct (truthy (byte_val fb)) eqn:Hfb; [discriminate|].
    apply truthy_byte_false in Hfb. subst fb.
    destruct d as [|lb d]; [discriminate|]. cbn [bind pop0] in H.
    destruct (truthy (byte_val lb)) eqn:Hlb; [discriminate|].
    apply truthy_byte_false in Hlb. subst lb.
    destruct (Z.eqb_spec (int_from_bytes (firstn 4 d)) 1) as [Hbn|];
      [|discriminate].
    exists i, (firstn 9 r), d. rewrite <- Hr. auto.
Qed.

Lemma with_first_block_invariants_witness :
  let attr := [x00; x01; x01; x00; x01; x08; x00; xff; x02] in
  SetRequestWithFirstBlock.from_bytes (E := Reference.externals)
    (xc1 :: x02 :: xc1 :: attr ++ x00 :: x01 :: [x00; x00; x00; x01; x01; x41])
  = Raise (ValueError LastBlockSetInFirstBlock) /\
  SetRequestWithFirstBlock.from_bytes (E := Reference.externals)
    (xc1 :: x02 :: xc1 :: attr ++ x00 :: x00 :: [x00; x00; x00; x02; x01; x41])
  = Raise (ValueError (BlockNumberShouldBeOne 2)) /\
  exists i a rest,
    xc1 :: x02 :: xc1 :: attr ++ x00 :: x00 :: [x00; x00; x00; x01; x01; x41]
    = xc1 :: x02 :: i :: a ++ x00 :: x00 :: rest /\
    length a = 9%nat /\ int_from_bytes (firstn 4 rest) = 1.
Proof.
  intros attr.
  destruct (with_first_block_invariants Reference.externals) as (F & I).
  split; [|split].
  - apply (F xc1 x01 attr [x00; x00; x00; x01; x01; x41] xc1 attr);
      [reflexivity | reflexivity | reflexivity | cbn; lia].
  - apply (F xc1 x00 attr [x00; x00; x00; x02; x01; x41] xc1 attr);
      [reflexivity | reflexivity | reflexivity | cbn; lia].
  - apply (I _ (SetRequestWithFirstBlock.Build (E := Reference.externals)
                  attr [x41] None xc1)).
    reflexivity.
Defined.

(** C6. Classification of the type-choice by the factories.  On a buffer
    with the tag of the family and a type-choice byte: a value outside 1..5
    raises the [ValueError] of the enumeration (unknown variant); 3, 4 and 5
    for Set-Request and 4 and 5 for Set-Response raise
    [NotImplementedError], which is another exception than the one of an
    unknown value; 1 and 2 for Set-Request and 1, 2 and 3 for Set-Response
    give what the decoder of that variant gives on the whole buffer. *)
Theorem dispatcher_classification (E : Externals) (tc : byte) (rest : list byte) :
  (~ 1 <= byte_val tc <= 5 ->
   SetRequestFactory.from_bytes (xc1 :: tc :: rest)
   = Raise (ValueError (NotAValidEnumValue (byte_val tc))) /\
   SetResponseFactory.from_bytes (xc5 :: tc :: rest)
   = Raise (ValueError (NotAValidEnumValue (byte_val tc)))) /\
  (3 <= byte_val tc <= 5 ->
   SetRequestFactory.from_bytes (xc1 :: tc :: rest)
   = Raise (NotImplementedError
              (if byte_val tc =? 3 then AbstractMethod else UnsupportedSubtype))) /\
  (4 <= byte_val tc <= 5 ->
   SetResponseFactory.from_bytes (xc5 :: tc :: rest)
   = Raise (NotImplementedError UnsupportedSubtype)) /\
  (forall m v, NotImplementedError m <> ValueError (NotAValidEnumValue v)) /\
  SetRequestFactory.from_bytes (xc1 :: x01 :: rest)
  = (x <- SetRequestNormal.from_bytes (xc1 :: x01 :: rest) ;;
     Ok (SetRequestFactory.Normal x)) /\
  SetRequestFactory.from_bytes (xc1 :: x02 :: rest)
  = (x <- SetRequestWithFirstBlock.from_bytes (xc1 :: x02 :: rest) ;;
     Ok (SetRequestFactory.WithFirstBlock x)) /\
  SetResponseFactory.from_bytes (xc5 :: x01 :: rest)
  = (x <- SetResponseNormal.from_bytes (xc5 :: x01 :: rest) ;;
     Ok (SetResponseFactory.Normal x)) /\
  SetResponseFactory.from_bytes (xc5 :: x02 :: rest)
  = (x <- SetResponseWithBlock.from_bytes (xc5 :: x02 :: rest) ;;
     Ok (SetResponseFactory.WithBlock x)) /\
  SetResponseFactory.from_bytes (xc5 :: x03 :: rest)
  = (x <- SetResponseLastBlock.from_bytes (xc5 :: x03 :: rest) ;;
     Ok (SetResponseFactory.LastBlock x)).
Proof.
  split; [|split; [|split; [|split]]].
  - intros H. split.
    + apply SetRequestFactory_unknown, H.
    + apply SetResponseFactory_unknown, H.
  - intros H. apply SetRequestFactory_not_implemented, H.
  - intros H. apply SetResponseFactory_not_implemented, H.
  - discriminate.
  - repeat split.
Qed.

Lemma dispatcher_classification_witness :
  let rest := [xc1; x00; x01; x01; x00; x01; x08; x00; xff; x02; x00; x09] in
  (SetRequestFactory.from_bytes (E := Reference.externals) (xc1 :: x06 :: rest)
   = Raise (ValueError (NotAValidEnumValue 6)) /\
   SetResponseFactory.from_bytes (E := Reference.externals) (xc5 :: x06 :: rest)
   = Raise (ValueError (NotAValidEnumValue 6))) /\
  SetRequestFactory.from_bytes (E := Reference.externals) (xc1 :: x04 :: rest)
  = Raise (NotImplementedError UnsupportedSubtype) /\
  SetResponseFactory.from_bytes (E := Reference.externals) (xc5 :: x04 :: rest)
  = Raise (NotImplementedError UnsupportedSubtype).
Proof.
  intros rest.
  split; [|split].
  - apply (dispatcher_classification Reference.externals x06 rest). cbn. lia.
  - apply (dispatcher_classification Reference.externals x04 rest). cbn. lia.
  - apply (dispatcher_classification Reference.externals x04 rest). cbn. lia.
Defined.

(** *** Selective access *)

Section SelectiveAccess.
Context {E : Externals}.

Lemma SetRequestNormal_no_access_selection
  (b : list byte) (x : SetRequestNormal.t) :
  SetRequestNormal.from_bytes b = Ok x ->
  SetRequestNormal.access_selection x = None.
Proof.
  intros H.
  destruct (SetRequestNormal_from_bytes_head b x H) as (i & r & ->).
  rewrite SetRequestNormal_from_bytes_body in H.
  destruct (InvokeIdAndPriority_from_bytes [i]) as [p|]; [|discriminate].
  cbn [bind] in H.
  destruct (CosemAttribute_from_bytes (firstn 9 r)) as [c|]; [|discriminate].
  cbn [bind] in H.
  destruct (pop0 (skipn 9 r)) as [[flag d]|]; [|discriminate].
  cbn [bind] in H.
  destruct (truthy flag); [discriminate|].
  inversion H. reflexivity.
Qed.

Lemma SetRequestWithFirstBlock_no_access_selection
  (b : list byte) (x : SetRequestWithFirstBlock.t) :
  SetRequestWithFirstBlock.from_bytes b = Ok x ->
  SetRequestWithFirstBlock.access_selection x = None.
Proof.
  intros H.
  destruct (SetRequestWithFirstBlock_from_bytes_head b x H) as (i & r & ->).
  rewrite SetRequestWithFirstBlock_from_bytes_body in H.
  destruct (InvokeIdAndPriority_from_bytes [i]) as [p|]; [|discriminate].
  cbn [bind] in H.
  destruct (CosemAttribute_from_bytes (firstn 9 r)) as [c|]; [|discriminate].
  cbn [bind] in H.
  destruct (pop0 (skipn 9 r)) as [[flag d]|]; [|discriminate].
  cbn [bind] in H.
  destruct (truthy flag); [discriminate|].
  destruct (pop0 d) as [[lb d']|]; [|discriminate].
  cbn [bind] in H.
  destruct (truthy lb); [discriminate|].
  destruct (negb _); [discriminate|].
  destruct (decode_variable_integer _) as [[n d'']|]; [|discriminate].
  cbn [bind] in H.
  destruct (negb _); [discriminate|].
  inversion H. reflexivity.
Qed.

End SelectiveAccess.

(** C7. Selective access.  On a Set-Request buffer of the Normal or the
    WithFirstBlock shape whose invoke-id byte and 9-byte attribute
    descriptor the collaborators decode: when the access-selection byte is
    not zero, [from_bytes] raises [NotImplementedError] and builds no value;
    when it is zero, the Normal decoder returns the value made of the
    remaining bytes, with no access selection, and the WithFirstBlock
    decoder goes on with the last-block byte.  No value that either
    decoder returns has an access selection. *)
Theorem selective_access_presence (E : Externals) :
  (forall (i flag : byte) (a rest : list byte)
          (p : InvokeIdAndPriority) (c : CosemAttribute),
     length a = 9%nat ->
     InvokeIdAndPriority_from_bytes [i] = Ok p ->
     CosemAttribute_from_bytes a = Ok c ->
     (byte_val flag <> 0 ->
      SetRequestNormal.from_bytes (xc1 :: x01 :: i :: a ++ flag :: rest)
      = Raise (NotImplementedError SelectiveAccessNotImplemented) /\
      SetRequestWithFirstBlock.from_bytes (xc1 :: x02 :: i :: a ++ flag :: rest)
      = Raise (NotImplementedError SelectiveAccessNotImplemented)) /\
     SetRequestNormal.from_bytes (xc1 :: x01 :: i :: a ++ x00 :: rest)
     = Ok (SetRequestNormal.Build c rest None p) /\
     SetRequestWithFirstBlock.from_bytes (xc1 :: x02 :: i :: a ++ x00 :: rest)
     = ('(lb, data) <- pop0 rest ;;
        if truthy lb then Raise (ValueError LastBlockSetInFirstBlock) else
        if negb (int_from_bytes (firstn 4 data) =? 1)
        then Raise (ValueError
                      (BlockNumberShouldBeOne (int_from_bytes (firstn 4 data))))
        else
        '(data_length, data) <- decode_variable_integer (skipn 4 data) ;;
        if negb (data_length =? Z.of_nat (length data))
        then Raise (ValueError OctetStringWrongLength)
        else Ok (SetRequestWithFirstBlock.Build c data None p))) /\
  (forall b x, SetRequestNormal.from_bytes b = Ok x ->
               SetRequestNormal.access_selection x = None) /\
  (forall b x, SetRequestWithFirstBlock.from_bytes b = Ok x ->
               SetRequestWithFirstBlock.access_selection x = None).
Proof.
  split; [|split].
  - intros i flag a rest p c La Hp Hc.
    rewrite !SetRequestNormal_from_bytes_body.
    rewrite !SetRequestWithFirstBlock_from_bytes_body.
    rewrite Hp. cbn [bind].
    rewrite !firstn_length_app, !skipn_length_app by exact La.
    rewrite Hc. cbn [bind pop0].
    split; [|split].
    + intros H. rewrite truthy_byte_true by exact H. split; reflexivity.
    + reflexivity.
    + reflexivity.
  - apply SetRequestNormal_no_access_selection.
  - apply SetRequestWithFirstBlock_no_access_selection.
Qed.

Lemma selective_access_presence_witness :
  let attr := [x00; x01; x01; x00; x01; x08; x00; xff; x02] in
  (SetRequestNormal.from_bytes (E := Reference.externals)
     (xc1 :: x01 :: xc1 :: attr ++ x01 :: [x01; x09; x02])
   = Raise (NotImplementedError SelectiveAccessNotImplemented) /\
   SetRequestWithFirstBlock.from_bytes (E := Reference.externals)
     (xc1 :: x02 :: xc1 :: attr ++ x01 :: [x01; x09; x02])
   = Raise (NotImplementedError SelectiveAccessNotImplemented)) /\
  SetRequestNormal.from_bytes (E := Reference.externals)
    (xc1 :: x01 :: xc1 :: attr ++ x00 :: [x09; x02; x41; x42])
  = Ok (SetRequestNormal.Build (E := Reference.externals)
          attr [x09; x02; x41; x42] None xc1) /\
  SetRequestNormal.access_selection
    (SetRequestNormal.Build (E := Reference.externals)
       attr [x09; x02; x41; x42] None xc1) = None.
Proof.
  intros attr.
  destruct (selective_access_presence Reference.externals) as (P & N & F).
  split; [|split].
  - apply (P xc1 x01 attr [x01; x09; x02] xc1 attr);
      [reflexivity | reflexivity | reflexivity | cbn; lia].
  - apply (P xc1 x00 attr [x09; x02; x41; x42] xc1 attr); reflexivity.
  - apply (N (xc1 :: x01 :: xc1 :: attr ++ x00 :: [x09; x02; x41; x42])).
    reflexivity.
Defined.

(** C8. Dispatcher equivalence.  On a buffer that starts with the
    Set-Request tag and type-choice 1 the factory gives what
    SetRequestNormal.from_bytes gives on the same, whole buffer; and when
    the buffer is a canonical Normal request, both decode it to one value
    whose encoding is the buffer again. *)
Theorem dispatcher_equivalence (E : Externals) :
  (forall rest,
     SetRequestFactory.from_bytes (xc1 :: x01 :: rest)
     = (x <- SetRequestNormal.from_bytes (xc1 :: x01 :: rest) ;;
        Ok (SetRequestFactory.Normal x))) /\
  (forall b,
     SetRequestNormal_canonical b ->
     exists x,
       SetRequestNormal.from_bytes b = Ok x /\
       SetRequestFactory.from_bytes b = Ok (SetRequestFactory.Normal x) /\
       SetRequestNormal.to_bytes x = Ok b /\
       SetRequestFactory.to_bytes (SetRequestFactory.Normal x) = Ok b).
Proof.
  split.
  - apply SetRequestFactory_normal.
  - intros b Hb.
    destruct (SetRequestNormal_canonical_round_trip b Hb) as (x & Hdec & Henc).
    exists x. split; [exact Hdec|]. split; [|split; exact Henc].
    destruct Hb as (i & a & d & p & c & -> & _).
    rewrite SetRequestFactory_normal, Hdec. reflexivity.
Qed.

Lemma dispatcher_equivalence_witness :
  let b := [xc1; x01; xc1; x00; x01; x01; x00; x01; x08; x00; xff; x02; x00;
            x09; x02; x41; x42] in
  exists x,
    SetRequestNormal.from_bytes (E := Reference.externals) b = Ok x /\
    SetRequestFactory.from_bytes b = Ok (SetRequestFactory.Normal x) /\
    SetRequestNormal.to_bytes x = Ok b /\
    SetRequestFactory.to_bytes (SetRequestFactory.Normal x) = Ok b.
Proof.
  intros b.
  apply (dispatcher_equivalence Reference.externals).
  exists xc1, [x00; x01; x01; x00; x01; x08; x00; xff; x02],
    [x09; x02; x41; x42], xc1, [x00; x01; x01; x00; x01; x08; x00; xff; x02].
  repeat split.
Defined.

(** *** The control byte *)

Lemma window_field_range (c : byte) : 0 <= Z.land (byte_val c) 63 <= 63.
Proof.
  destruct c; vm_compute; split; discriminate.
Qed.

Lemma GeneralBlockTransfer_decoded_window (b : list byte) (x : GeneralBlockTransfer.t) :
  GeneralBlockTransfer_canonical b ->
  GeneralBlockTransfer.from_bytes b = Ok x ->
  0 <= GeneralBlockTransfer.window x <= 63.
Proof.
  intros (c & bn & ba & len & d & -> & Hbn & Hba & Hlen) H.
  destruct (list_length_2 _ Hbn) as (b1 & b2 & ->).
  destruct (list_length_2 _ Hba) as (a1 & a2 & ->).
  cbn [app] in H. rewrite GeneralBlockTransfer_from_bytes_shape in H.
  destruct (_ <=? _)%nat; [|discriminate].
  inversion H. cbn [GeneralBlockTransfer.window]. apply window_field_range.
Qed.

Lemma GeneralBlockTransfer_round_trip_window (x : GeneralBlockTransfer.t) :
  decodes_back GeneralBlockTransfer.to_bytes GeneralBlockTransfer.from_bytes x ->
  0 <= GeneralBlockTransfer.window x <= 63.
Proof.
  intros (b & Henc & Hdec).
  apply (GeneralBlockTransfer_decoded_window b x); [|exact Hdec].
  apply (GeneralBlockTransfer_to_bytes_canonical x b Henc).
Qed.

(** C9. The window is not checked.  [to_bytes] puts
    [(last_block << 7) | (streaming << 6) | window] in the control byte
    whatever the window is; the value with window 64 and neither flag set is
    encoded to the control byte 0x40, which [from_bytes] decodes to
    streaming set and window 0, so this value does not survive the round
    trip; and a value that does survive it has its window in 0..63. *)
Theorem window_overflows_into_flags :
  (forall x b,
     GeneralBlockTransfer.to_bytes x = Ok b ->
     exists rest,
       b = xe0
           :: byte_of_Z
                (Z.lor (Z.lor (Z.shiftl (Z.b2z (GeneralBlockTransfer.last_block x)) 7)
                              (Z.shiftl (Z.b2z (GeneralBlockTransfer.streaming x)) 6))
                       (GeneralBlockTransfer.window x))
           :: rest) /\
  (let x := GeneralBlockTransfer.Build false false 64 4 5 [x61; x62; x63] in
   GeneralBlockTransfer.to_bytes x
   = Ok [xe0; x40; x00; x04; x00; x05; x03; x61; x62; x63] /\
   GeneralBlockTransfer.from_bytes
     [xe0; x40; x00; x04; x00; x05; x03; x61; x62; x63]
   = Ok (GeneralBlockTransfer.Build false true 0 4 5 [x61; x62; x63]) /\
   ~ decodes_back GeneralBlockTransfer.to_bytes GeneralBlockTransfer.from_bytes x) /\
  (forall x,
     decodes_back GeneralBlockTransfer.to_bytes GeneralBlockTransfer.from_bytes x ->
     0 <= GeneralBlockTransfer.window x <= 63).
Proof.
  split; [|split].
  - intros x b. unfold GeneralBlockTransfer.to_bytes.
    fold (GeneralBlockTransfer.control x). unfold bytes_of_int.
    destruct (_ && _); [|discriminate]. cbn [bind].
    destruct (int_to_bytes _ 2) as [bn|]; [|discriminate]. cbn [bind].
    destruct (int_to_bytes _ 2) as [ba|]; [|discriminate]. cbn [bind].
    destruct (int_to_bytes _ 1) as [ln|]; [|discriminate]. cbn [bind].
    intros H. inversion H. eexists. reflexivity.
  - split; [reflexivity|]. split; [reflexivity|].
    intros H. apply GeneralBlockTransfer_round_trip_window in H.
    cbn in H. lia.
  - apply GeneralBlockTransfer_round_trip_window.
Qed.

Lemma window_overflows_into_flags_witness :
  let x := GeneralBlockTransfer.Build true false 3 4 5 [x61; x62; x63] in
  (exists rest, [xe0; x83; x00; x04; x00; x05; x03; x61; x62; x63]
                = xe0 :: x83 :: rest) /\
  0 <= GeneralBlockTransfer.window x <= 63.
Proof.
  intros x.
  destruct window_overflows_into_flags as (C & _ & W).
  split.
  - apply (C x). reflexivity.
  - apply (W x). eexists. split; reflexivity.
Defined.

(** C10. The Set-Response decoders do not look past their fields.  With an
    invoke-id byte (and a result byte) that the collaborators decode,
    SetResponseNormal, SetResponseWithBlock and SetResponseLastBlock return
    the same value whatever bytes follow the last field; and
    SetResponseWithBlock and SetResponseLastBlock return a value when the
    block number has fewer than four bytes, which is the big-endian value
    of the bytes that are there, 0 when there is none. *)
Theorem set_response_leniency (E : Externals)
  (i : byte) (p : InvokeIdAndPriority) :
  InvokeIdAndPriority_from_bytes [i] = Ok p ->
  (forall (v : byte) (r : DataAccessResult) (bn extra : list byte),
     DataAccessResult_of_value (byte_val v) = Ok r ->
     SetResponseNormal.from_bytes (xc5 :: x01 :: i :: v :: extra)
     = Ok (SetResponseNormal.Build r p) /\
     (length bn = 4%nat ->
      SetResponseLastBlock.from_bytes (xc5 :: x03 :: i :: v :: bn ++ extra)
      = Ok (SetResponseLastBlock.Build r p (int_from_bytes bn))) /\
     ((length bn < 4)%nat ->
      SetResponseLastBlock.from_bytes (xc5 :: x03 :: i :: v :: bn)
      = Ok (SetResponseLastBlock.Build r p (int_from_bytes bn))) /\
     SetResponseLastBlock.from_bytes [xc5; x03; i; v]
     = Ok (SetResponseLastBlock.Build r p 0)) /\
  (forall (bn extra : list byte),
     (length bn = 4%nat ->
      SetResponseWithBlock.from_bytes (xc5 :: x02 :: i :: bn ++ extra)
      = Ok (SetResponseWithBlock.Build p (int_from_bytes bn))) /\
     ((length bn < 4)%nat ->
      SetResponseWithBlock.from_bytes (xc5 :: x02 :: i :: bn)
      = Ok (SetResponseWithBlock.Build p (int_from_bytes bn)))) /\
  SetResponseWithBlock.from_bytes [xc5; x02; i]
  = Ok (SetResponseWithBlock.Build p 0).
Proof.
  intros Hp. split; [|split].
  - intros v r bn extra Hr.
    rewrite SetResponseNormal_from_bytes_body.
    rewrite !SetResponseLastBlock_from_bytes_body.
    rewrite Hp. cbn [bind pop0]. rewrite Hr. cbn [bind].
    split; [reflexivity|]. split; [|split].
    + intros L. rewrite firstn_length_app by exact L. reflexivity.
    + intros L. rewrite firstn_all2 by lia. reflexivity.
    + reflexivity.
  - intros bn extra. rewrite !SetResponseWithBlock_from_bytes_body.
    rewrite Hp. cbn [bind]. split.
    + intros L. rewrite firstn_length_app by exact L. reflexivity.
    + intros L. rewrite firstn_all2 by lia. reflexivity.
  - rewrite SetResponseWithBlock_from_bytes_body, Hp. reflexivity.
Qed.

Lemma set_response_leniency_witness :
  SetResponseNormal.from_bytes (E := Reference.externals)
    [xc5; x01; xc1; x00; xde; xad]
  = Ok (SetResponseNormal.Build (E := Reference.externals) Reference.SUCCESS xc1) /\
  SetResponseLastBlock.from_bytes (E := Reference.externals)
    [xc5; x03; xc1; x00; x00; x00; x00; x07; xde; xad]
  = Ok (SetResponseLastBlock.Build (E := Reference.externals)
          Reference.SUCCESS xc1 7) /\
  SetResponseLastBlock.from_bytes (E := Reference.externals)
    [xc5; x03; xc1; x00; x01; x02]
  = Ok (SetResponseLastBlock.Build (E := Reference.externals)
          Reference.SUCCESS xc1 258) /\
  SetResponseWithBlock.from_bytes (E := Reference.externals)
    [xc5; x02; xc1; x00; x00; x00; x07; xde; xad]
  = Ok (SetResponseWithBlock.Build (E := Reference.externals) xc1 7) /\
  SetResponseWithBlock.from_bytes (E := Reference.externals)
    [xc5; x02; xc1; x01; x02]
  = Ok (SetResponseWithBlock.Build (E := Reference.externals) xc1 258) /\
  SetResponseWithBlock.from_bytes (E := Reference.externals) [xc5; x02; xc1]
  = Ok (SetResponseWithBlock.Build (E := Reference.externals) xc1 0).
Proof.
  destruct (set_response_leniency Reference.externals xc1 xc1 eq_refl)
    as (R & B & Z0).
  destruct (R x00 Reference.SUCCESS [x00; x00; x00; x07] [xde; xad] eq_refl)
    as (R1 & R2 & _ & _).
  destruct (R x00 Reference.SUCCESS [x01; x02] [] eq_refl) as (_ & _ & R3 & _).
  destruct (B [x00; x00; x00; x07] [xde; xad]) as (B1 & _).
  destruct (B [x01; x02] []) as (_ & B2).
  split; [exact R1|]. split; [apply R2; reflexivity|].
  split; [apply R3; cbn; lia|]. split; [apply B1; reflexivity|].
  split; [apply B2; cbn; lia|exact Z0].
Defined.

(** ** The reference collaborators agree with themselves *)

Module ReferenceProperties.

Lemma InvokeIdAndPriority_agrees_all (p : byte) :
  InvokeIdAndPriority_agrees (E := Reference.externals) p p.
Proof.
  split; reflexivity.
Qed.

Lemma CosemAttribute_agrees_all (a : list byte) :
  length a = 9%nat -> CosemAttribute_agrees (E := Reference.externals) a a.
Proof.
  intros L. split; [exact L|]. split; [reflexivity|].
  cbn. unfold Reference.CosemAttribute_from_bytes. rewrite L. reflexivity.
Qed.

Lemma DataAccessResult_agrees_all (r : Reference.DataAccessResult) :
  DataAccessResult_agrees (E := Reference.externals) r
    (byte_of_Z (Reference.DataAccessResult_value r)).
Proof.
  destruct r; split; reflexivity.
Qed.

Lemma encoded_length_spec (fuel k m : nat) (n : Z) :
  (k <= m < k + fuel)%nat ->
  n < 256 ^ Z.of_nat m ->
  (k <= Reference.encoded_length fuel k n <= m)%nat /\
  n < 256 ^ Z.of_nat (Reference.encoded_length fuel k n).
Proof.
  revert k. induction fuel as [|f IH]; intros k Hm H; [lia|].
  cbn [Reference.encoded_length].
  destruct (Z.ltb_spec n (256 ^ Z.of_nat k)) as [Hlt|Hge].
  - split; [lia|exact Hlt].
  - assert (m <> k) by (intros ->; lia).
    destruct (IH (S k)) as (Hr & Hn); [lia|exact H|].
    split; [lia|exact Hn].
Qed.

Lemma long_form_byte (k : nat) :
  (1 <= k <= 127)%nat ->
  let b := byte_of_Z (128 + Z.of_nat k) in
  truthy (Z.land (byte_val b) 128) = true /\
  Z.to_nat (Z.land (byte_val b) 127) = k.
Proof.
  intros H.
  destruct k as [|k]; [lia|].
  do 127 (destruct k as [|k]; [split; reflexivity|]). lia.
Qed.

Lemma short_form_byte (n : Z) :
  0 <= n <= 127 ->
  let b := byte_of_Z n in
  truthy (Z.land (byte_val b) 128) = false /\ Z.land (byte_val b) 127 = n.
Proof.
  intros H.
  assert (Hn : exists k, (k <= 127)%nat /\ n = Z.of_nat k)
    by (exists (Z.to_nat n); lia).
  destruct Hn as (k & Hk & ->).
  do 128 (destruct k as [|k]; [split; reflexivity|]). lia.
Qed.

(** The BER-style prefix of the length of [d] is decoded to that length and
    to [d], as long as the length is below [256 ^ 127]. *)
Lemma variable_integer_agrees_all (d : list byte) :
  Z.of_nat (length d) < 256 ^ 127 ->
  exists pre, variable_integer_agrees (E := Reference.externals) d pre.
Proof.
  intros Hd. set (n := Z.of_nat (length d)) in *.
  unfold variable_integer_agrees. cbn [encode_variable_integer
    decode_variable_integer Reference.externals]. fold n.
  unfold Reference.encode_variable_integer, Reference.decode_variable_integer.
  destruct (Z.ltb_spec 127 n) as [Hlong|Hshort].
  - destruct (encoded_length_spec 127 1 127 n ltac:(lia) Hd) as (Hk & Hn).
    set (k := Reference.encoded_length 127 1 n) in *.
    destruct (long_form_byte k) as (Hb1 & Hb2); [lia|].
    rewrite int_to_bytes_ok by (change (256 ^ Z.of_nat 1) with 256; lia).
    rewrite int_to_bytes_ok by lia.
    cbn [bind be_digits app].
    rewrite Z.mod_small by lia.
    eexists. split; [reflexivity|].
    cbn [app bind pop0]. rewrite Hb1, Hb2.
    rewrite firstn_length_app, skipn_length_app by apply length_be_digits.
    rewrite int_from_bytes_be_digits by lia. reflexivity.
  - assert (Hn : 0 <= n <= 127) by lia.
    destruct (short_form_byte n Hn) as (Hb1 & Hb2).
    rewrite int_to_bytes_ok by (change (256 ^ Z.of_nat 1) with 256; lia).
    cbn [be_digits app]. rewrite Z.mod_small by lia.
    eexists. split; [reflexivity|].
    cbn [app bind pop0]. rewrite Hb1, Hb2. reflexivity.
Qed.

End ReferenceProperties.

(** * Further properties of the codecs *)

(** ** General-Block-Transfer: decoding *)

Lemma GeneralBlockTransfer_from_bytes_head (b : list byte) (x : GeneralBlockTransfer.t) :
  GeneralBlockTransfer.from_bytes b = Ok x ->
  exists c b1 b2 a1 a2 len d, b = xe0 :: c :: b1 :: b2 :: a1 :: a2 :: len :: d.
Proof.
  unfold GeneralBlockTransfer.from_bytes. intros H.
  destruct b as [|t b]; [discriminate|]. cbn [bind pop0] in H.
  destruct (Z.eqb_spec (byte_val t) GeneralBlockTransfer.TAG) as [Ht|];
    [|discriminate].
  apply (byte_val_inj t xe0) in Ht. subst t.
  destruct b as [|c [|b1 [|b2 [|a1 [|a2 [|len d]]]]]]; try discriminate H.
  eauto 8.
Qed.

(** X1. [GeneralBlockTransfer.from_bytes] returns a value exactly on the
    buffers made of the tag 0xE0, a control byte, four bytes of block number
    and block ack, a length byte and at most that many further bytes; the
    value holds the three fields of the control byte, the two big-endian
    numbers and all the further bytes. *)
Theorem GeneralBlockTransfer_from_bytes_Ok_iff
  (b : list byte) (x : GeneralBlockTransfer.t) :
  GeneralBlockTransfer.from_bytes b = Ok x <->
  exists c b1 b2 a1 a2 len d,
    b = xe0 :: c :: b1 :: b2 :: a1 :: a2 :: len :: d /\
    Z.of_nat (length d) <= byte_val len /\
    x = GeneralBlockTransfer.Build
          (truthy (Z.land (byte_val c) 128)) (truthy (Z.land (byte_val c) 64))
          (Z.land (byte_val c) 63)
          (int_from_bytes [b1; b2]) (int_from_bytes [a1; a2]) d.
Proof.
  split.
  - intros H.
    destruct (GeneralBlockTransfer_from_bytes_head b x H)
      as (c & b1 & b2 & a1 & a2 & len & d & ->).
    rewrite GeneralBlockTransfer_from_bytes_shape in H.
    destruct (Nat.leb_spec (length d) (Z.to_nat (byte_val len))) as [Hl|];
      [|discriminate].
    rewrite firstn_all2 in H by exact Hl. inversion H.
    exists c, b1, b2, a1, a2, len, d.
    pose proof (byte_val_range len). repeat split. lia.
  - intros (c & b1 & b2 & a1 & a2 & len & d & -> & Hl & ->).
    rewrite GeneralBlockTransfer_from_bytes_shape.
    destruct (Nat.leb_spec (length d) (Z.to_nat (byte_val len))); [|lia].
    rewrite firstn_all2 by lia. reflexivity.
Qed.

Lemma GeneralBlockTransfer_from_bytes_Ok_iff_witness :
  GeneralBlockTransfer.from_bytes [xe0; x40; x00; x01; x00; x00; x02; x41]
  = Ok (GeneralBlockTransfer.Build false true 0 1 0 [x41]).
Proof.
  apply GeneralBlockTransfer_from_bytes_Ok_iff.
  exists x40, x00, x01, x00, x00, x02, [x41].
  split; [reflexivity|]. split; [cbn; lia|reflexivity].
Defined.

(** X2. A buffer of fewer than seven bytes is never decoded: the empty
    buffer and every buffer that starts with the tag and has fewer than six
    further bytes raise [IndexError], the numbers being read from what is
    there and the length byte being the one that is missing. *)
Theorem GeneralBlockTransfer_short_buffer (rest : list byte) :
  (length rest < 6)%nat ->
  GeneralBlockTransfer.from_bytes [] = Raise IndexError /\
  GeneralBlockTransfer.from_bytes (xe0 :: rest) = Raise IndexError.
Proof.
  intros H. split; [reflexivity|].
  destruct rest as [|c [|b1 [|b2 [|a1 [|a2 [|len d]]]]]]; try reflexivity.
  cbn in H. lia.
Qed.

Lemma GeneralBlockTransfer_short_buffer_witness :
  GeneralBlockTransfer.from_bytes [xe0; x83; x00; x04; x00; x05]
  = Raise IndexError.
Proof.
  apply (GeneralBlockTransfer_short_buffer [x83; x00; x04; x00; x05]).
  cbn. lia.
Defined.

(** X3. Whatever [from_bytes] returns is in range: window in 0..63, block
    number and block ack in 0..65535, at most 255 bytes of data.  So a
    decoded value can always be encoded again, and the bytes so obtained
    decode to the same value. *)
Theorem GeneralBlockTransfer_decoded_is_valid
  (b : list byte) (x : GeneralBlockTransfer.t) :
  GeneralBlockTransfer.from_bytes b = Ok x ->
  GeneralBlockTransfer_valid x /\
  decodes_back GeneralBlockTransfer.to_bytes GeneralBlockTransfer.from_bytes x.
Proof.
  intros H.
  assert (V : GeneralBlockTransfer_valid x).
  { destruct (GeneralBlockTransfer_from_bytes_head b x H)
      as (c & b1 & b2 & a1 & a2 & len & d & ->).
    rewrite GeneralBlockTransfer_from_bytes_shape in H.
    destruct (Nat.leb_spec (length d) (Z.to_nat (byte_val len))) as [Hl|];
      [|discriminate].
    inversion H. unfold GeneralBlockTransfer_valid.
    cbn [GeneralBlockTransfer.window GeneralBlockTransfer.block_number
         GeneralBlockTransfer.block_ack GeneralBlockTransfer.block_data].
    pose proof (window_field_range c).
    pose proof (int_from_bytes_range [b1; b2]) as R1.
    pose proof (int_from_bytes_range [a1; a2]) as R2.
    change (256 ^ Z.of_nat (length [b1; b2])) with 65536 in R1.
    change (256 ^ Z.of_nat (length [a1; a2])) with 65536 in R2.
    pose proof (byte_val_range len).
    rewrite length_firstn. repeat split; lia. }
  split; [exact V|]. apply GeneralBlockTransfer_valid_round_trip, V.
Qed.

Lemma GeneralBlockTransfer_decoded_is_valid_witness :
  let x := GeneralBlockTransfer.Build true false 3 4 5 [x61; x62; x63] in
  GeneralBlockTransfer_valid x /\
  decodes_back GeneralBlockTransfer.to_bytes GeneralBlockTransfer.from_bytes x.
Proof.
  intros x.
  apply (GeneralBlockTransfer_decoded_is_valid
           [xe0; x83; x00; x04; x00; x05; x05; x61; x62; x63]).
  reflexivity.
Defined.

(** X4. Decoding then encoding gives the buffer back exactly when the
    length byte of the buffer is the number of data bytes that follow it:
    on a buffer with fewer data bytes than announced, the encoding of the
    decoded value differs from the buffer. *)
Theorem GeneralBlockTransfer_reencode_iff_canonical
  (b : list byte) (x : GeneralBlockTransfer.t) :
  GeneralBlockTransfer.from_bytes b = Ok x ->
  (GeneralBlockTransfer.to_bytes x = Ok b <-> GeneralBlockTransfer_canonical b).
Proof.
  intros H. split.
  - apply GeneralBlockTransfer_to_bytes_canonical.
  - intros Hc.
    destruct (GeneralBlockTransfer_canonical_round_trip b Hc) as (x' & Hd & He).
    rewrite H in Hd. inversion Hd. subst x'. exact He.
Qed.

Lemma GeneralBlockTransfer_reencode_iff_canonical_witness :
  GeneralBlockTransfer.to_bytes
    (GeneralBlockTransfer.Build true false 3 4 5 [x61; x62; x63])
  <> Ok [xe0; x83; x00; x04; x00; x05; x05; x61; x62; x63].
Proof.
  intros He.
  apply (GeneralBlockTransfer_reencode_iff_canonical
           [xe0; x83; x00; x04; x00; x05; x05; x61; x62; x63]) in He;
    [|reflexivity].
  destruct He as (c & bn & ba & len & d & Hb & Hbn & Hba & Hlen).
  destruct (list_length_2 _ Hbn) as (b1 & b2 & ->).
  destruct (list_length_2 _ Hba) as (a1 & a2 & ->).
  cbn [app] in Hb. inversion Hb. subst. cbn in Hlen. lia.
Defined.

(** ** General-Block-Transfer: encoding *)



Lemma bytes_of_int_out_of_range (v : Z) :
  ~ 0 <= v < 256 -> bytes_of_int v = Raise (ValueError ByteOutOfRange).
Proof.
  intros H. unfold bytes_of_int.
  destruct (Z.leb_spec 0 v); [|reflexivity].
  destruct (Z.ltb_spec v 256); [lia|reflexivity].
Qed.

Lemma int_to_bytes_out_of_range (v : Z) (n : nat) :
  ~ 0 <= v < 256 ^ Z.of_nat n -> int_to_bytes v n = Raise OverflowError.
Proof.
  intros H. unfold int_to_bytes.
  destruct (Z.leb_spec 0 v); [|reflexivity].
  destruct (Z.ltb_spec v (256 ^ Z.of_nat n)); [lia|reflexivity].
Qed.



(** X6. On values in range [to_bytes] is injective: two values in range
    with the same encoding are the same value.  (It is not injective on all
    the values it encodes: window 64 without streaming and window 0 with
    streaming share the control byte 0x40.) *)
Theorem GeneralBlockTransfer_to_bytes_injective (x y : GeneralBlockTransfer.t) :
  GeneralBlockTransfer_valid x -> GeneralBlockTransfer_valid y ->
  GeneralBlockTransfer.to_bytes x = GeneralBlockTransfer.to_bytes y ->
  x = y.
Proof.
  intros Vx Vy H.
  destruct (GeneralBlockTransfer_valid_round_trip x Vx) as (bx & Ex & Dx).
  destruct (GeneralBlockTransfer_valid_round_trip y Vy) as (by_ & Ey & Dy).
  rewrite Ex, Ey in H. inversion H. subst by_.
  rewrite Dx in Dy. inversion Dy. reflexivity.
Qed.

Lemma GeneralBlockTransfer_to_bytes_injective_witness :
  GeneralBlockTransfer.Build true false 3 4 5 [x61; x62; x63]
  = GeneralBlockTransfer.Build true false 3 4 5 [x61; x62; x63] /\
  GeneralBlockTransfer.to_bytes
    (GeneralBlockTransfer.Build false false 64 4 5 [])
  = GeneralBlockTransfer.to_bytes
      (GeneralBlockTransfer.Build false true 0 4 5 []).
Proof.
  split; [|reflexivity].
  apply GeneralBlockTransfer_to_bytes_injective;
    [unfold GeneralBlockTransfer_valid; cbn; lia
    |unfold GeneralBlockTransfer_valid; cbn; lia
    |reflexivity].
Defined.

(** ** Set-Request and Set-Response: what the decoders accept *)

Section Acceptance.
Context {E : Externals}.

Lemma SetResponseNormal_from_bytes_head (b : list byte) (x : SetResponseNormal.t) :
  SetResponseNormal.from_bytes b = Ok x ->
  exists i rest, b = xc5 :: x01 :: i :: rest.
Proof.
  unfold SetResponseNormal.from_bytes. intros H.
  destruct b as [|t b]; [discriminate|]. cbn [bind pop0] in H.
  destruct (Z.eqb_spec (byte_val t) SetResponseNormal.TAG) as [Ht|]; [|discriminate].
  apply (byte_val_inj t xc5) in Ht. subst t. cbn [negb] in H.
  destruct b as [|tc b]; [discriminate|]. cbn [bind pop0] in H.
  assert (tc = x01) by (destruct tc; try reflexivity; discriminate H).
  subst tc. destruct b as [|i rest]; [discriminate|]. eauto.
Qed.

Lemma SetResponseWithBlock_from_bytes_head
  (b : list byte) (x : SetResponseWithBlock.t) :
  SetResponseWithBlock.from_bytes b = Ok x ->
  exists i rest, b = xc5 :: x02 :: i :: rest.
Proof.
  unfold SetResponseWithBlock.from_bytes. intros H.
  destruct b as [|t b]; [discriminate|]. cbn [bind pop0] in H.
  destruct (Z.eqb_spec (byte_val t) SetResponseWithBlock.TAG) as [Ht|];
    [|discriminate].
  apply (byte_val_inj t xc5) in Ht. subst t. cbn [negb] in H.
  destruct b as [|tc b]; [discriminate|]. cbn [bind pop0] in H.
  assert (tc = x02) by (destruct tc; try reflexivity; discriminate H).
  subst tc. destruct b as [|i rest]; [discriminate|]. eauto.
Qed.

Lemma SetResponseLastBlock_from_bytes_head
  (b : list byte) (x : SetResponseLastBlock.t) :
  SetResponseLastBlock.from_bytes b = Ok x ->
  exists i rest, b = xc5 :: x03 :: i :: rest.
Proof.
  unfold SetResponseLastBlock.from_bytes. intros H.
  destruct b as [|t b]; [discriminate|]. cbn [bind pop0] in H.
  destruct (Z.eqb_spec (byte_val t) SetResponseLastBlock.TAG) as [Ht|];
    [|discriminate].
  apply (byte_val_inj t xc5) in Ht. subst t. cbn [negb] in H.
  destruct b as [|tc b]; [discriminate|]. cbn [bind pop0] in H.
  assert (tc = x03) by (destruct tc; try reflexivity; discriminate H).
  subst tc. destruct b as [|i rest]; [discriminate|]. eauto.
Qed.

End Acceptance.

(** X7. [SetRequestNormal.from_bytes] returns a value exactly on the
    buffers C1 01, an invoke-id byte and nine descriptor bytes that the
    collaborators decode, a zero access-selection byte, and any bytes after
    it; the value holds those last bytes, uninterpreted, as its data. *)
Theorem SetRequestNormal_from_bytes_Ok_iff (E : Externals)
  (b : list byte) (x : SetRequestNormal.t) :
  SetRequestNormal.from_bytes b = Ok x <->
  exists i a d p c,
    b = xc1 :: x01 :: i :: a ++ x00 :: d /\ length a = 9%nat /\
    InvokeIdAndPriority_from_bytes [i] = Ok p /\
    CosemAttribute_from_bytes a = Ok c /\
    x = SetRequestNormal.Build c d None p.
Proof.
  split.
  - intros H.
    destruct (SetRequestNormal_from_bytes_head b x H) as (i & r & ->).
    rewrite SetRequestNormal_from_bytes_body in H.
    destruct (InvokeIdAndPriority_from_bytes [i]) as [p|] eqn:Hp; [|discriminate].
    cbn [bind] in H.
    destruct (CosemAttribute_from_bytes (firstn 9 r)) as [c|] eqn:Hc;
      [|discriminate].
    cbn [bind] in H.
    destruct (pop0 (skipn 9 r)) as [[flag d]|] eqn:Hflag; [|discriminate].
    cbn [bind] in H.
    destruct (pop0_skipn_inv _ _ _ _ Hflag) as (fb & -> & Hr & La).
    destruct (truthy (byte_val fb)) eqn:Hfb; [discriminate|].
    apply truthy_byte_false in Hfb. subst fb. inversion H.
    exists i, (firstn 9 r), d, p, c. rewrite <- Hr. auto.
  - intros (i & a & d & p & c & -> & La & Hp & Hc & ->).
    rewrite SetRequestNormal_from_bytes_body, Hp. cbn [bind].
    rewrite firstn_length_app, skipn_length_app by exact La.
    rewrite Hc. reflexivity.
Qed.

Lemma SetRequestNormal_from_bytes_Ok_iff_witness :
  let attr := [x00; x01; x01; x00; x01; x08; x00; xff; x02] in
  SetRequestNormal.from_bytes (E := Reference.externals)
    (xc1 :: x01 :: xc1 :: attr ++ x00 :: [])
  = Ok (SetRequestNormal.Build (E := Reference.externals) attr [] None xc1).
Proof.
  intros attr.
  apply (SetRequestNormal_from_bytes_Ok_iff Reference.externals).
  exists xc1, attr, [], xc1, attr. repeat split.
Defined.

(** X8. [SetRequestWithFirstBlock.from_bytes] returns a value exactly on the
    buffers C1 02, an invoke-id byte and nine descriptor bytes that the
    collaborators decode, a zero access-selection byte, a zero last-block
    byte, a block number read as 1, and a rest that
    [decode_variable_integer] splits into a length and exactly that many
    bytes; the value holds those bytes as its data. *)
Theorem SetRequestWithFirstBlock_from_bytes_Ok_iff (E : Externals)
  (b : list byte) (x : SetRequestWithFirstBlock.t) :
  SetRequestWithFirstBlock.from_bytes b = Ok x <->
  exists i a rest d p c,
    b = xc1 :: x02 :: i :: a ++ x00 :: x00 :: rest /\ length a = 9%nat /\
    InvokeIdAndPriority_from_bytes [i] = Ok p /\
    CosemAttribute_from_bytes a = Ok c /\
    int_from_bytes (firstn 4 rest) = 1 /\
    decode_variable_integer (skipn 4 rest) = Ok (Z.of_nat (length d), d) /\
    x = SetRequestWithFirstBlock.Build c d None p.
Proof.
  split.
  - intros H.
    destruct (SetRequestWithFirstBlock_from_bytes_head b x H) as (i & r & ->).
    rewrite SetRequestWithFirstBlock_from_bytes_body in H.
    destruct (InvokeIdAndPriority_from_bytes [i]) as [p|] eqn:Hp; [|discriminate].
    cbn [bind] in H.
    destruct (CosemAttribute_from_bytes (firstn 9 r)) as [c|] eqn:Hc;
      [|discriminate].
    cbn [bind] in H.
    destruct (pop0 (skipn 9 r)) as [[flag d]|] eqn:Hflag; [|discriminate].
    cbn [bind] in H.
    destruct (pop0_skipn_inv _ _ _ _ Hflag) as (fb & -> & Hr & La).
    destruct (truthy (byte_val fb)) eqn:Hfb; [discriminate|].
    apply truthy_byte_false in Hfb. subst fb.
    destruct d as [|lb d]; [discriminate|]. cbn [bind pop0] in H.
    destruct (truthy (byte_val lb)) eqn:Hlb; [discriminate|].
    apply truthy_byte_false in Hlb. subst lb.
    destruct (Z.eqb_spec (int_from_bytes (firstn 4 d)) 1) as [Hbn|];
      [|discriminate].
    cbn [negb] in H.
    destruct (decode_variable_integer (skipn 4 d)) as [[n d']|] eqn:Hd;
      [|discriminate].
    cbn [bind] in H.
    destruct (Z.eqb_spec n (Z.of_nat (length d'))) as [->|]; [|discriminate].
    inversion H.
    exists i, (firstn 9 r), d, d', p, c. rewrite <- Hr. auto 10.
  - intros (i & a & rest & d & p & c & -> & La & Hp & Hc & Hbn & Hd & ->).
    rewrite SetRequestWithFirstBlock_from_bytes_body, Hp. cbn [bind].
    rewrite firstn_length_app, skipn_length_app by exact La.
    rewrite Hc. cbn [bind pop0]. change (truthy (byte_val x00)) with false.
    cbn [bind]. rewrite Hbn. change (negb (1 =? 1)) with false. cbn [bind].
    rewrite Hd. cbn [bind]. rewrite Z.eqb_refl. reflexivity.
Qed.

Lemma SetRequestWithFirstBlock_from_bytes_Ok_iff_witness :
  let attr := [x00; x01; x01; x00; x01; x08; x00; xff; x02] in
  SetRequestWithFirstBlock.from_bytes (E := Reference.externals)
    (xc1 :: x02 :: xc1 :: attr ++
       x00 :: x00 :: [x00; x00; x00; x01; x02; x41; x42])
  = Ok (SetRequestWithFirstBlock.Build (E := Reference.externals)
          attr [x41; x42] None xc1).
Proof.
  intros attr.
  apply (SetRequestWithFirstBlock_from_bytes_Ok_iff Reference.externals).
  exists xc1, attr, [x00; x00; x00; x01; x02; x41; x42], [x41; x42], xc1, attr.
  repeat split.
Defined.

(** X9. The three Set-Response decoders return a value exactly on the
    buffers C5, their own type-choice, an invoke-id byte that the
    collaborator decodes, and for Normal and LastBlock a result byte that
    [DataAccessResult] knows; whatever follows is the block number (its
    first four bytes at most) for WithBlock and LastBlock and is ignored by
    Normal. *)
Theorem SetResponse_from_bytes_Ok_iff (E : Externals) (b : list byte) :
  (forall x,
     SetResponseNormal.from_bytes b = Ok x <->
     exists i v rest p r,
       b = xc5 :: x01 :: i :: v :: rest /\
       InvokeIdAndPriority_from_bytes [i] = Ok p /\
       DataAccessResult_of_value (byte_val v) = Ok r /\
       x = SetResponseNormal.Build r p) /\
  (forall x,
     SetResponseWithBlock.from_bytes b = Ok x <->
     exists i rest p,
       b = xc5 :: x02 :: i :: rest /\
       InvokeIdAndPriority_from_bytes [i] = Ok p /\
       x = SetResponseWithBlock.Build p (int_from_bytes (firstn 4 rest))) /\
  (forall x,
     SetResponseLastBlock.from_bytes b = Ok x <->
     exists i v rest p r,
       b = xc5 :: x03 :: i :: v :: rest /\
       InvokeIdAndPriority_from_bytes [i] = Ok p /\
       DataAccessResult_of_value (byte_val v) = Ok r /\
       x = SetResponseLastBlock.Build r p (int_from_bytes (firstn 4 rest))).
Proof.
  split; [|split]; intros x; split.
  - intros H.
    destruct (SetResponseNormal_from_bytes_head b x H) as (i & r & ->).
    rewrite SetResponseNormal_from_bytes_body in H.
    destruct (InvokeIdAndPriority_from_bytes [i]) as [p|] eqn:Hp; [|discriminate].
    cbn [bind] in H. destruct r as [|v rest]; [discriminate|].
    cbn [bind pop0] in H.
    destruct (DataAccessResult_of_value (byte_val v)) as [res|] eqn:Hr;
      [|discriminate].
    inversion H. exists i, v, rest, p, res. auto.
  - intros (i & v & rest & p & r & -> & Hp & Hr & ->).
    rewrite SetResponseNormal_from_bytes_body, Hp. cbn [bind pop0].
    rewrite Hr. reflexivity.
  - intros H.
    destruct (SetResponseWithBlock_from_bytes_head b x H) as (i & r & ->).
    rewrite SetResponseWithBlock_from_bytes_body in H.
    destruct (InvokeIdAndPriority_from_bytes [i]) as [p|] eqn:Hp; [|discriminate].
    inversion H. exists i, r, p. auto.
  - intros (i & rest & p & -> & Hp & ->).
    rewrite SetResponseWithBlock_from_bytes_body, Hp. reflexivity.
  - intros H.
    destruct (SetResponseLastBlock_from_bytes_head b x H) as (i & r & ->).
    rewrite SetResponseLastBlock_from_bytes_body in H.
    destruct (InvokeIdAndPriority_from_bytes [i]) as [p|] eqn:Hp; [|discriminate].
    cbn [bind] in H. destruct r as [|v rest]; [discriminate|].
    cbn [bind pop0] in H.
    destruct (DataAccessResult_of_value (byte_val v)) as [res|] eqn:Hr;
      [|discriminate].
    inversion H. exists i, v, rest, p, res. auto.
  - intros (i & v & rest & p & r & -> & Hp & Hr & ->).
    rewrite SetResponseLastBlock_from_bytes_body, Hp. cbn [bind pop0].
    rewrite Hr. reflexivity.
Qed.

Lemma SetResponse_from_bytes_Ok_iff_witness :
  SetResponseNormal.from_bytes (E := Reference.externals) [xc5; x01; xc1; x03]
  = Ok (SetResponseNormal.Build (E := Reference.externals)
          Reference.READ_WRITE_DENIED xc1) /\
  SetResponseWithBlock.from_bytes (E := Reference.externals)
    [xc5; x02; xc1; x00; x00; x01; x00]
  = Ok (SetResponseWithBlock.Build (E := Reference.externals) xc1 256) /\
  SetResponseLastBlock.from_bytes (E := Reference.externals)
    [xc5; x03; xc1; x00; x00; x00; x01; x00]
  = Ok (SetResponseLastBlock.Build (E := Reference.externals)
          Reference.SUCCESS xc1 256).
Proof.
  split; [|split].
  - apply (SetResponse_from_bytes_Ok_iff Reference.externals).
    exists xc1, x03, [], xc1, Reference.READ_WRITE_DENIED. repeat split.
  - apply (SetResponse_from_bytes_Ok_iff Reference.externals).
    exists xc1, [x00; x00; x01; x00], xc1. repeat split.
  - apply (SetResponse_from_bytes_Ok_iff Reference.externals).
    exists xc1, x00, [x00; x00; x01; x00], xc1, Reference.SUCCESS. repeat split.
Defined.

(** ** The type-choice check of the variant decoders *)

Section TypeChoice.
Context {E : Externals}.

Lemma SetRequestNormal_unknown_type (tc : byte) (rest : list byte) :
  ~ 1 <= byte_val tc <= 5 ->
  SetRequestNormal.from_bytes (xc1 :: tc :: rest)
  = Raise (ValueError (NotAValidEnumValue (byte_val tc))).
Proof. intros H. unknown_type H tc. Qed.

Lemma SetRequestWithFirstBlock_unknown_type (tc : byte) (rest : list byte) :
  ~ 1 <= byte_val tc <= 5 ->
  SetRequestWithFirstBlock.from_bytes (xc1 :: tc :: rest)
  = Raise (ValueError (NotAValidEnumValue (byte_val tc))).
Proof. intros H. unknown_type H tc. Qed.

Lemma SetResponseNormal_unknown_type (tc : byte) (rest : list byte) :
  ~ 1 <= byte_val tc <= 5 ->
  SetResponseNormal.from_bytes (xc5 :: tc :: rest)
  = Raise (ValueError (NotAValidEnumValue (byte_val tc))).
Proof. intros H. unknown_type H tc. Qed.

Lemma SetResponseWithBlock_unknown_type (tc : byte) (rest : list byte) :
  ~ 1 <= byte_val tc <= 5 ->
  SetResponseWithBlock.from_bytes (xc5 :: tc :: rest)
  = Raise (ValueError (NotAValidEnumValue (byte_val tc))).
Proof. intros H. unknown_type H tc. Qed.

Lemma SetResponseLastBlock_unknown_type (tc : byte) (rest : list byte) :
  ~ 1 <= byte_val tc <= 5 ->
  SetResponseLastBlock.from_bytes (xc5 :: tc :: rest)
  = Raise (ValueError (NotAValidEnumValue (byte_val tc))).
Proof. intros H. unknown_type H tc. Qed.

Lemma SetRequestNormal_other_type (tc : byte) (rest : list byte) :
  1 <= byte_val tc <= 5 -> byte_val tc <> 1 ->
  SetRequestNormal.from_bytes (xc1 :: tc :: rest)
  = Raise (ValueError TypeNotForThisClass).
Proof. intros H H'. other_type H H' tc. Qed.

Lemma SetRequestWithFirstBlock_other_type (tc : byte) (rest : list byte) :
  1 <= byte_val tc <= 5 -> byte_val tc <> 2 ->
  SetRequestWithFirstBlock.from_bytes (xc1 :: tc :: rest)
  = Raise (ValueError TypeNotForThisClass).
Proof. intros H H'. other_type H H' tc. Qed.

Lemma SetResponseNormal_other_type (tc : byte) (rest : list byte) :
  1 <= byte_val tc <= 5 -> byte_val tc <> 1 ->
  SetResponseNormal.from_bytes (xc5 :: tc :: rest)
  = Raise (ValueError TypeNotForThisClass).
Proof. intros H H'. other_type H H' tc. Qed.

Lemma SetResponseWithBlock_other_type (tc : byte) (rest : list byte) :
  1 <= byte_val tc <= 5 -> byte_val tc <> 2 ->
  SetResponseWithBlock.from_bytes (xc5 :: tc :: rest)
  = Raise (ValueError TypeNotForThisClass).
Proof. intros H H'. other_type H H' tc. Qed.

Lemma SetResponseLastBlock_other_type (tc : byte) (rest : list byte) :
  1 <= byte_val tc <= 5 -> byte_val tc <> 3 ->
  SetResponseLastBlock.from_bytes (xc5 :: tc :: rest)
  = Raise (ValueError TypeNotForThisClass).
Proof. intros H H'. other_type H H' tc. Qed.

End TypeChoice.

(** X10. Each variant decoder checks the type-choice byte itself, after the
    tag and before anything else: a byte outside 1..5 raises the
    [ValueError] of the enumeration, and a byte in 1..5 that is not the
    type-choice of the class raises the [ValueError] "not for" this class,
    whatever follows. *)
Theorem variant_type_choice_check (E : Externals) (tc : byte) (rest : list byte) :
  (~ 1 <= byte_val tc <= 5 ->
   SetRequestNormal.from_bytes (xc1 :: tc :: rest)
   = Raise (ValueError (NotAValidEnumValue (byte_val tc))) /\
   SetRequestWithFirstBlock.from_bytes (xc1 :: tc :: rest)
   = Raise (ValueError (NotAValidEnumValue (byte_val tc))) /\
   SetResponseNormal.from_bytes (xc5 :: tc :: rest)
   = Raise (ValueError (NotAValidEnumValue (byte_val tc))) /\
   SetResponseWithBlock.from_bytes (xc5 :: tc :: rest)
   = Raise (ValueError (NotAValidEnumValue (byte_val tc))) /\
   SetResponseLastBlock.from_bytes (xc5 :: tc :: rest)
   = Raise (ValueError (NotAValidEnumValue (byte_val tc)))) /\
  (1 <= byte_val tc <= 5 ->
   (byte_val tc <> 1 ->
    SetRequestNormal.from_bytes (xc1 :: tc :: rest)
    = Raise (ValueError TypeNotForThisClass) /\
    SetResponseNormal.from_bytes (xc5 :: tc :: rest)
    = Raise (ValueError TypeNotForThisClass)) /\
   (byte_val tc <> 2 ->
    SetRequestWithFirstBlock.from_bytes (xc1 :: tc :: rest)
    = Raise (ValueError TypeNotForThisClass) /\
    SetResponseWithBlock.from_bytes (xc5 :: tc :: rest)
    = Raise (ValueError TypeNotForThisClass)) /\
   (byte_val tc <> 3 ->
    SetResponseLastBlock.from_bytes (xc5 :: tc :: rest)
    = Raise (ValueError TypeNotForThisClass))).
Proof.
  split.
  - intros H.
    repeat split;
    auto using SetRequestNormal_unknown_type,
      SetRequestWithFirstBlock_unknown_type, SetResponseNormal_unknown_type,
      SetResponseWithBlock_unknown_type, SetResponseLastBlock_unknown_type.
  - intros H. split; [|split]; intros H'.
    + split;
        auto using SetRequestNormal_other_type, SetResponseNormal_other_type.
    + split;
        auto using SetRequestWithFirstBlock_other_type,
          SetResponseWithBlock_other_type.
    + auto using SetResponseLastBlock_other_type.
Qed.

Lemma variant_type_choice_check_witness :
  SetRequestNormal.from_bytes (E := Reference.externals) [xc1; x06; xc1]
  = Raise (ValueError (NotAValidEnumValue 6)) /\
  SetRequestNormal.from_bytes (E := Reference.externals) [xc1; x02; xc1]
  = Raise (ValueError TypeNotForThisClass) /\
  SetResponseLastBlock.from_bytes (E := Reference.externals) [xc5; x01; xc1; x00]
  = Raise (ValueError TypeNotForThisClass).
Proof.
  split; [|split].
  - apply (variant_type_choice_check Reference.externals x06 [xc1]). cbn. lia.
  - apply (variant_type_choice_check Reference.externals x02 [xc1]);
      cbn; lia.
  - apply (variant_type_choice_check Reference.externals x01 [xc1; x00]);
      cbn; lia.
Defined.

(** X11. The header cannot be missing: on the empty buffer, on a buffer
    that holds only the tag, and for the variant decoders on a buffer that
    holds only the tag and the type-choice, [pop(0)] on the emptied
    bytearray raises [IndexError]. *)
Theorem truncated_header_raises_IndexError (E : Externals) :
  (GeneralBlockTransfer.from_bytes [] = Raise IndexError /\
   SetRequestNormal.from_bytes [] = Raise IndexError /\
   SetRequestWithFirstBlock.from_bytes [] = Raise IndexError /\
   SetRequestFactory.from_bytes [] = Raise IndexError /\
   SetResponseNormal.from_bytes [] = Raise IndexError /\
   SetResponseWithBlock.from_bytes [] = Raise IndexError /\
   SetResponseLastBlock.from_bytes [] = Raise IndexError /\
   SetResponseFactory.from_bytes [] = Raise IndexError) /\
  (GeneralBlockTransfer.from_bytes [xe0] = Raise IndexError /\
   SetRequestNormal.from_bytes [xc1] = Raise IndexError /\
   SetRequestWithFirstBlock.from_bytes [xc1] = Raise IndexError /\
   SetRequestFactory.from_bytes [xc1] = Raise IndexError /\
   SetResponseNormal.from_bytes [xc5] = Raise IndexError /\
   SetResponseWithBlock.from_bytes [xc5] = Raise IndexError /\
   SetResponseLastBlock.from_bytes [xc5] = Raise IndexError /\
   SetResponseFactory.from_bytes [xc5] = Raise IndexError) /\
  (SetRequestNormal.from_bytes [xc1; x01] = Raise IndexError /\
   SetRequestWithFirstBlock.from_bytes [xc1; x02] = Raise IndexError /\
   SetResponseNormal.from_bytes [xc5; x01] = Raise IndexError /\
   SetResponseWithBlock.from_bytes [xc5; x02] = Raise IndexError /\
   SetResponseLastBlock.from_bytes [xc5; x03] = Raise IndexError /\
   SetRequestFactory.from_bytes [xc1; x01] = Raise IndexError /\
   SetRequestFactory.from_bytes [xc1; x02] = Raise IndexError /\
   SetResponseFactory.from_bytes [xc5; x01] = Raise IndexError /\
   SetResponseFactory.from_bytes [xc5; x02] = Raise IndexError /\
   SetResponseFactory.from_bytes [xc5; x03] = Raise IndexError).
Proof.
  repeat split.
Qed.

(** X12. How long a decoded buffer is.  A buffer that SetRequestNormal
    decodes has 13 bytes more than the data of the value; one that
    SetRequestWithFirstBlock decodes has at least 15 bytes; one that
    SetResponseNormal or SetResponseLastBlock decodes has at least 4, one
    that SetResponseWithBlock decodes at least 3. *)
Theorem decoded_buffer_length (E : Externals) (b : list byte) :
  (forall x, SetRequestNormal.from_bytes b = Ok x ->
             length b = (13 + length (SetRequestNormal.data x))%nat) /\
  (forall x, SetRequestWithFirstBlock.from_bytes b = Ok x ->
             (15 <= length b)%nat) /\
  (forall x, SetResponseNormal.from_bytes b = Ok x -> (4 <= length b)%nat) /\
  (forall x, SetResponseWithBlock.from_bytes b = Ok x -> (3 <= length b)%nat) /\
  (forall x, SetResponseLastBlock.from_bytes b = Ok x -> (4 <= length b)%nat).
Proof.
  split; [|split; [|split; [|split]]]; intros x H.
  - apply SetRequestNormal_from_bytes_Ok_iff in H.
    destruct H as (i & a & d & p & c & -> & La & _ & _ & ->).
    cbn [length SetRequestNormal.data]. rewrite length_app, La.
    cbn [length]. lia.
  - apply SetRequestWithFirstBlock_from_bytes_Ok_iff in H.
    destruct H as (i & a & rest & d & p & c & -> & La & _ & _ & Hbn & _).
    destruct rest as [|r rest]; [discriminate Hbn|].
    cbn [length]. rewrite length_app, La. cbn [length]. lia.
  - apply SetResponse_from_bytes_Ok_iff in H.
    destruct H as (i & v & rest & p & r & -> & _). cbn [length]. lia.
  - apply SetResponse_from_bytes_Ok_iff in H.
    destruct H as (i & rest & p & -> & _). cbn [length]. lia.
  - apply SetResponse_from_bytes_Ok_iff in H.
    destruct H as (i & v & rest & p & r & -> & _). cbn [length]. lia.
Qed.

Lemma decoded_buffer_length_witness :
  let b := [xc1; x01; xc1; x00; x01; x01; x00; x01; x08; x00; xff; x02; x00;
            x09; x02; x41; x42] in
  length b = (13 + 4)%nat.
Proof.
  intros b.
  apply (proj1 (decoded_buffer_length Reference.externals b)
           (SetRequestNormal.Build (E := Reference.externals)
              [x00; x01; x01; x00; x01; x08; x00; xff; x02]
              [x09; x02; x41; x42] None xc1)).
  reflexivity.
Defined.

(** X13. A variant decoder that returns a value on a buffer is the only one
    of its family that does: each other variant decoder of the family
    raises the [ValueError] of a type-choice that is not its own. *)
Theorem variant_decoders_are_exclusive (E : Externals) (b : list byte) :
  (forall x, SetRequestNormal.from_bytes b = Ok x ->
     SetRequestWithFirstBlock.from_bytes b
     = Raise (ValueError TypeNotForThisClass)) /\
  (forall x, SetRequestWithFirstBlock.from_bytes b = Ok x ->
     SetRequestNormal.from_bytes b = Raise (ValueError TypeNotForThisClass)) /\
  (forall x, SetResponseNormal.from_bytes b = Ok x ->
     SetResponseWithBlock.from_bytes b = Raise (ValueError TypeNotForThisClass) /\
     SetResponseLastBlock.from_bytes b = Raise (ValueError TypeNotForThisClass)) /\
  (forall x, SetResponseWithBlock.from_bytes b = Ok x ->
     SetResponseNormal.from_bytes b = Raise (ValueError TypeNotForThisClass) /\
     SetResponseLastBlock.from_bytes b = Raise (ValueError TypeNotForThisClass)) /\
  (forall x, SetResponseLastBlock.from_bytes b = Ok x ->
     SetResponseNormal.from_bytes b = Raise (ValueError TypeNotForThisClass) /\
     SetResponseWithBlock.from_bytes b = Raise (ValueError TypeNotForThisClass)).
Proof.
  split; [|split; [|split; [|split]]]; intros x H.
  - destruct (SetRequestNormal_from_bytes_head b x H) as (i & r & ->).
    reflexivity.
  - destruct (SetRequestWithFirstBlock_from_bytes_head b x H) as (i & r & ->).
    reflexivity.
  - destruct (SetResponseNormal_from_bytes_head b x H) as (i & r & ->).
    split; reflexivity.
  - destruct (SetResponseWithBlock_from_bytes_head b x H) as (i & r & ->).
    split; reflexivity.
  - destruct (SetResponseLastBlock_from_bytes_head b x H) as (i & r & ->).
    split; reflexivity.
Qed.

Lemma variant_decoders_are_exclusive_witness :
  SetResponseNormal.from_bytes (E := Reference.externals)
    [xc5; x02; xc1; x00; x00; x00; x07]
  = Raise (ValueError TypeNotForThisClass) /\
  SetResponseLastBlock.from_bytes (E := Reference.externals)
    [xc5; x02; xc1; x00; x00; x00; x07]
  = Raise (ValueError TypeNotForThisClass).
Proof.
  destruct (variant_decoders_are_exclusive Reference.externals
              [xc5; x02; xc1; x00; x00; x00; x07]) as (_ & _ & _ & H & _).
  apply (H (SetResponseWithBlock.Build (E := Reference.externals) xc1 7)).
  reflexivity.
Defined.

(** ** Encoding a request that has an access selection *)



(** ** The factories and the variant decoders *)

Section Factories.
Context {E : Externals}.

Lemma SetRequestFactory_from_bytes_head
  (b : list byte) (v : SetRequestFactory.apdu) :
  SetRequestFactory.from_bytes b = Ok v ->
  exists tc rest, b = xc1 :: tc :: rest /\ (tc = x01 \/ tc = x02).
Proof.
  unfold SetRequestFactory.from_bytes. intros H.
  destruct b as [|t b]; [discriminate|]. cbn [bind pop0] in H.
  destruct (Z.eqb_spec (byte_val t) SetRequestFactory.TAG) as [Ht|];
    [|discriminate].
  apply (byte_val_inj t xc1) in Ht. subst t. cbn [negb] in H.
  destruct b as [|tc b]; [discriminate|]. cbn [bind pop0] in H.
  exists tc, b. split; [reflexivity|].
  destruct tc; first [discriminate H | auto].
Qed.

Lemma SetResponseFactory_from_bytes_head
  (b : list byte) (v : SetResponseFactory.apdu) :
  SetResponseFactory.from_bytes b = Ok v ->
  exists tc rest, b = xc5 :: tc :: rest /\ (tc = x01 \/ tc = x02 \/ tc = x03).
Proof.
  unfold SetResponseFactory.from_bytes. intros H.
  destruct b as [|t b]; [discriminate|]. cbn [bind pop0] in H.
  destruct (Z.eqb_spec (byte_val t) SetResponseFactory.TAG) as [Ht|];
    [|discriminate].
  apply (byte_val_inj t xc5) in Ht. subst t. cbn [negb] in H.
  destruct b as [|tc b]; [discriminate|]. cbn [bind pop0] in H.
  exists tc, b. split; [reflexivity|].
  destruct tc; first [discriminate H | auto].
Qed.

End Factories.

(** X15. SetResponseFactory accepts exactly what the three response
    decoders accept, and returns their value: it returns an object of a
    class on a buffer if and only if the decoder of that class returns
    that object on the buffer. *)
Theorem SetResponseFactory_from_bytes_Ok_iff (E : Externals) (b : list byte) :
  (forall x, SetResponseFactory.from_bytes b = Ok (SetResponseFactory.Normal x)
             <-> SetResponseNormal.from_bytes b = Ok x) /\
  (forall x, SetResponseFactory.from_bytes b = Ok (SetResponseFactory.WithBlock x)
             <-> SetResponseWithBlock.from_bytes b = Ok x) /\
  (forall x, SetResponseFactory.from_bytes b = Ok (SetResponseFactory.LastBlock x)
             <-> SetResponseLastBlock.from_bytes b = Ok x).
Proof.
  split; [|split]; intros x; split; intros H.
  - destruct (SetResponseFactory_from_bytes_head b _ H)
      as (tc & rest & -> & [-> | [-> | ->]]).
    + rewrite SetResponseFactory_normal in H. bind_ok H. congruence.
    + rewrite SetResponseFactory_with_block in H. bind_ok H. discriminate.
    + rewrite SetResponseFactory_last_block in H. bind_ok H. discriminate.
  - destruct (SetResponseNormal_from_bytes_head b x H) as (i & r & ->).
    rewrite SetResponseFactory_normal, H. reflexivity.
  - destruct (SetResponseFactory_from_bytes_head b _ H)
      as (tc & rest & -> & [-> | [-> | ->]]).
    + rewrite SetResponseFactory_normal in H. bind_ok H. discriminate.
    + rewrite SetResponseFactory_with_block in H. bind_ok H. congruence.
    + rewrite SetResponseFactory_last_block in H. bind_ok H. discriminate.
  - destruct (SetResponseWithBlock_from_bytes_head b x H) as (i & r & ->).
    rewrite SetResponseFactory_with_block, H. reflexivity.
  - destruct (SetResponseFactory_from_bytes_head b _ H)
      as (tc & rest & -> & [-> | [-> | ->]]).
    + rewrite SetResponseFactory_normal in H. bind_ok H. discriminate.
    + rewrite SetResponseFactory_with_block in H. bind_ok H. discriminate.
    + rewrite SetResponseFactory_last_block in H. bind_ok H. congruence.
  - destruct (SetResponseLastBlock_from_bytes_head b x H) as (i & r & ->).
    rewrite SetResponseFactory_last_block, H. reflexivity.
Qed.

Lemma SetResponseFactory_from_bytes_Ok_iff_witness :
  SetResponseFactory.from_bytes (E := Reference.externals)
    [xc5; x03; xc1; x00; x00; x00; x00; x07]
  = Ok (SetResponseFactory.LastBlock
          (SetResponseLastBlock.Build (E := Reference.externals)
             Reference.SUCCESS xc1 7)).
Proof.
  apply (SetResponseFactory_from_bytes_Ok_iff Reference.externals).
  reflexivity.
Defined.

(** X16. SetRequestFactory returns a SetRequestNormal on a buffer if and
    only if SetRequestNormal.from_bytes returns it on the buffer, and a
    SetRequestWithFirstBlock if and only if
    SetRequestWithFirstBlock.from_bytes returns it. *)
Theorem SetRequestFactory_from_bytes_Ok_iff (E : Externals) (b : list byte) :
  (forall x, SetRequestFactory.from_bytes b = Ok (SetRequestFactory.Normal x)
             <-> SetRequestNormal.from_bytes b = Ok x) /\
  (forall x, SetRequestFactory.from_bytes b
             = Ok (SetRequestFactory.WithFirstBlock x)
             <-> SetRequestWithFirstBlock.from_bytes b = Ok x).
Proof.
  split; intros x; split; intros H.
  - destruct (SetRequestFactory_from_bytes_head b _ H)
      as (tc & rest & -> & [-> | ->]).
    + rewrite SetRequestFactory_normal in H. bind_ok H. congruence.
    + rewrite SetRequestFactory_with_first_block in H. bind_ok H. discriminate.
  - destruct (SetRequestNormal_from_bytes_head b x H) as (i & r & ->).
    rewrite SetRequestFactory_normal, H. reflexivity.
  - destruct (SetRequestFactory_from_bytes_head b _ H)
      as (tc & rest & -> & [-> | ->]).
    + rewrite SetRequestFactory_normal in H. bind_ok H. discriminate.
    + rewrite SetRequestFactory_with_first_block in H. bind_ok H. congruence.
  - destruct (SetRequestWithFirstBlock_from_bytes_head b x H) as (i & r & ->).
    rewrite SetRequestFactory_with_first_block, H. reflexivity.
Qed.

Lemma SetRequestFactory_from_bytes_Ok_iff_witness :
  let attr := [x00; x01; x01; x00; x01; x08; x00; xff; x02] in
  SetRequestFactory.from_bytes (E := Reference.externals)
    (xc1 :: x02 :: xc1 :: attr ++
       x00 :: x00 :: [x00; x00; x00; x01; x02; x41; x42])
  = Ok (SetRequestFactory.WithFirstBlock
          (SetRequestWithFirstBlock.Build (E := Reference.externals)
             attr [x41; x42] None xc1)).
Proof.
  intros attr.
  apply (SetRequestFactory_from_bytes_Ok_iff Reference.externals).
  reflexivity.
Defined.

(** X17. The factory of a family decodes what the encoder of each
    implemented variant of the family produces, to the same value and in
    the class of the variant, for every value in range. *)
Theorem factory_decodes_every_encoding (E : Externals) :
  (forall x, SetRequestNormal_valid x ->
     exists b, SetRequestNormal.to_bytes x = Ok b /\
               SetRequestFactory.from_bytes b = Ok (SetRequestFactory.Normal x)) /\
  (forall x, SetRequestWithFirstBlock_valid x ->
     exists b, SetRequestWithFirstBlock.to_bytes x = Ok b /\
               SetRequestFactory.from_bytes b
               = Ok (SetRequestFactory.WithFirstBlock x)) /\
  (forall x, SetResponseNormal_valid x ->
     exists b, SetResponseNormal.to_bytes x = Ok b /\
               SetResponseFactory.from_bytes b
               = Ok (SetResponseFactory.Normal x)) /\
  (forall x, SetResponseWithBlock_valid x ->
     exists b, SetResponseWithBlock.to_bytes x = Ok b /\
               SetResponseFactory.from_bytes b
               = Ok (SetResponseFactory.WithBlock x)) /\
  (forall x, SetResponseLastBlock_valid x ->
     exists b, SetResponseLastBlock.to_bytes x = Ok b /\
               SetResponseFactory.from_bytes b
               = Ok (SetResponseFactory.LastBlock x)).
Proof.
  split; [|split; [|split; [|split]]]; intros x V.
  - destruct (SetRequestNormal_valid_round_trip x V) as (b & He & Hd).
    exists b. split; [exact He|].
    destruct (SetRequestNormal_from_bytes_head b x Hd) as (i & r & ->).
    rewrite SetRequestFactory_normal, Hd. reflexivity.
  - destruct (SetRequestWithFirstBlock_valid_round_trip x V) as (b & He & Hd).
    exists b. split; [exact He|].
    destruct (SetRequestWithFirstBlock_from_bytes_head b x Hd) as (i & r & ->).
    rewrite SetRequestFactory_with_first_block, Hd. reflexivity.
  - destruct (SetResponseNormal_valid_round_trip x V) as (b & He & Hd).
    exists b. split; [exact He|].
    destruct (SetResponseNormal_from_bytes_head b x Hd) as (i & r & ->).
    rewrite SetResponseFactory_normal, Hd. reflexivity.
  - destruct (SetResponseWithBlock_valid_round_trip x V) as (b & He & Hd).
    exists b. split; [exact He|].
    destruct (SetResponseWithBlock_from_bytes_head b x Hd) as (i & r & ->).
    rewrite SetResponseFactory_with_block, Hd. reflexivity.
  - destruct (SetResponseLastBlock_valid_round_trip x V) as (b & He & Hd).
    exists b. split; [exact He|].
    destruct (SetResponseLastBlock_from_bytes_head b x Hd) as (i & r & ->).
    rewrite SetResponseFactory_last_block, Hd. reflexivity.
Qed.

Lemma factory_decodes_every_encoding_witness :
  let x := SetResponseWithBlock.Build (E := Reference.externals) xc1 7 in
  exists b, SetResponseWithBlock.to_bytes x = Ok b /\
            SetResponseFactory.from_bytes b = Ok (SetResponseFactory.WithBlock x).
Proof.
  intros x.
  apply (factory_decodes_every_encoding Reference.externals).
  split; [cbn; lia|]. exists xc1. split; reflexivity.
Defined.

(** ** Set-Response: encoding and the block number *)

Lemma append_out_of_range (out : list byte) (v : Z) :
  ~ 0 <= v < 256 -> append out v = Raise (ValueError ByteOutOfRange).
Proof.
  intros H. unfold append. rewrite bytes_of_int_out_of_range by exact H.
  reflexivity.
Qed.

Lemma append_ok (out : list byte) (v : Z) :
  0 <= v < 256 -> append out v = Ok (out ++ [byte_of_Z v]).
Proof.
  intros H. unfold append. rewrite bytes_of_int_ok by exact H. reflexivity.
Qed.

(** X18. What [to_bytes] of the three Set-Response classes does once the
    invoke-id has been encoded by its collaborator: a result whose value is
    not in 0..255 makes [bytearray.append] raise [ValueError]; otherwise a
    block number that is not in 0..2^32-1 makes [int.to_bytes] raise
    [OverflowError]; otherwise the bytes are C5, the type-choice, the
    invoke-id, the result byte (Normal, LastBlock) and the four big-endian
    bytes of the block number (WithBlock, LastBlock).  An exception of the
    invoke-id encoder is passed on. *)
Theorem SetResponse_to_bytes_outcome (E : Externals) :
  (forall (x : SetResponseNormal.t) (ib : list byte),
     InvokeIdAndPriority_to_bytes (SetResponseNormal.invoke_id_and_priority x)
     = Ok ib ->
     let v := DataAccessResult_value (SetResponseNormal.result x) in
     (~ 0 <= v < 256 ->
      SetResponseNormal.to_bytes x = Raise (ValueError ByteOutOfRange)) /\
     (0 <= v < 256 ->
      SetResponseNormal.to_bytes x = Ok (xc5 :: x01 :: ib ++ [byte_of_Z v]))) /\
  (forall (x : SetResponseWithBlock.t) (ib : list byte),
     InvokeIdAndPriority_to_bytes (SetResponseWithBlock.invoke_id_and_priority x)
     = Ok ib ->
     let n := SetResponseWithBlock.block_number x in
     (~ 0 <= n < 2 ^ 32 ->
      SetResponseWithBlock.to_bytes x = Raise OverflowError) /\
     (0 <= n < 2 ^ 32 ->
      SetResponseWithBlock.to_bytes x
      = Ok (xc5 :: x02 :: ib ++ be_digits 4 n))) /\
  (forall (x : SetResponseLastBlock.t) (ib : list byte),
     InvokeIdAndPriority_to_bytes (SetResponseLastBlock.invoke_id_and_priority x)
     = Ok ib ->
     let v := DataAccessResult_value (SetResponseLastBlock.result x) in
     let n := SetResponseLastBlock.block_number x in
     (~ 0 <= v < 256 ->
      SetResponseLastBlock.to_bytes x = Raise (ValueError ByteOutOfRange)) /\
     (0 <= v < 256 -> ~ 0 <= n < 2 ^ 32 ->
      SetResponseLastBlock.to_bytes x = Raise OverflowError) /\
     (0 <= v < 256 -> 0 <= n < 2 ^ 32 ->
      SetResponseLastBlock.to_bytes x
      = Ok (xc5 :: x03 :: ib ++ byte_of_Z v :: be_digits 4 n))) /\
  (forall (e : exn),
     (forall x : SetResponseNormal.t,
        InvokeIdAndPriority_to_bytes (SetResponseNormal.invoke_id_and_priority x)
        = Raise e -> SetResponseNormal.to_bytes x = Raise e) /\
     (forall x : SetResponseWithBlock.t,
        InvokeIdAndPriority_to_bytes (SetResponseWithBlock.invoke_id_and_priority x)
        = Raise e -> SetResponseWithBlock.to_bytes x = Raise e) /\
     (forall x : SetResponseLastBlock.t,
        InvokeIdAndPriority_to_bytes (SetResponseLastBlock.invoke_id_and_priority x)
        = Raise e -> SetResponseLastBlock.to_bytes x = Raise e)).
Proof.
  split; [|split; [|split]].
  - intros x ib Hi v. unfold SetResponseNormal.to_bytes. fold v.
    eval_append. rewrite Hi. cbn [extend bind]. split; intros Hv.
    + rewrite append_out_of_range by exact Hv. reflexivity.
    + rewrite append_ok by exact Hv. cbn [bind]. f_equal; list_eq.
  - intros x ib Hi n. unfold SetResponseWithBlock.to_bytes. fold n.
    eval_append. rewrite Hi. cbn [extend bind]. split; intros Hn.
    + rewrite int_to_bytes_out_of_range
        by (change (256 ^ Z.of_nat 4) with (2 ^ 32); exact Hn).
      reflexivity.
    + rewrite int_to_bytes_ok
        by (change (256 ^ Z.of_nat 4) with (2 ^ 32); exact Hn).
      reflexivity.
  - intros x ib Hi v n. unfold SetResponseLastBlock.to_bytes. fold v. fold n.
    eval_append. rewrite Hi. cbn [extend bind]. split; [|split].
    + intros Hv. rewrite append_out_of_range by exact Hv. reflexivity.
    + intros Hv Hn. rewrite append_ok by exact Hv. cbn [bind].
      rewrite int_to_bytes_out_of_range
        by (change (256 ^ Z.of_nat 4) with (2 ^ 32); exact Hn).
      reflexivity.
    + intros Hv Hn. rewrite append_ok by exact Hv. cbn [bind].
      rewrite int_to_bytes_ok
        by (change (256 ^ Z.of_nat 4) with (2 ^ 32); exact Hn).
      cbn [extend bind]. f_equal; list_eq.
  - intros e. split; [|split]; intros x Hi.
    + unfold SetResponseNormal.to_bytes. eval_append. rewrite Hi. reflexivity.
    + unfold SetResponseWithBlock.to_bytes. eval_append. rewrite Hi.
      reflexivity.
    + unfold SetResponseLastBlock.to_bytes. eval_append. rewrite Hi.
      reflexivity.
Qed.

Lemma SetResponse_to_bytes_outcome_witness :
  SetResponseWithBlock.to_bytes
    (SetResponseWithBlock.Build (E := Reference.externals) xc1 (2 ^ 32))
  = Raise OverflowError /\
  SetResponseWithBlock.to_bytes
    (SetResponseWithBlock.Build (E := Reference.externals) xc1 (-1))
  = Raise OverflowError /\
  SetResponseLastBlock.to_bytes
    (SetResponseLastBlock.Build (E := Reference.externals)
       Reference.OTHER_REASON xc1 (2 ^ 32 - 1))
  = Ok [xc5; x03; xc1; xfa; xff; xff; xff; xff] /\
  SetResponseNormal.to_bytes
    (SetResponseNormal.Build (E := Reference.externals) Reference.SUCCESS xc1)
  = Ok [xc5; x01; xc1; x00].
Proof.
  destruct (SetResponse_to_bytes_outcome Reference.externals)
    as (N & B & L & _).
  split; [|split; [|split]].
  - apply (B (SetResponseWithBlock.Build (E := Reference.externals)
                xc1 (2 ^ 32)) [xc1] eq_refl).
    cbn. lia.
  - apply (B (SetResponseWithBlock.Build (E := Reference.externals)
                xc1 (-1)) [xc1] eq_refl).
    cbn. lia.
  - apply (L (SetResponseLastBlock.Build (E := Reference.externals)
                Reference.OTHER_REASON xc1 (2 ^ 32 - 1)) [xc1] eq_refl);
      cbn; lia.
  - apply (N (SetResponseNormal.Build (E := Reference.externals)
                Reference.SUCCESS xc1) [xc1] eq_refl).
    cbn. lia.
Defined.

(** X19. The block number of a decoded SetResponseWithBlock or
    SetResponseLastBlock is in 0..2^32-1, however many bytes the buffer
    has after the fixed fields. *)
Theorem SetResponse_decoded_block_number (E : Externals) (b : list byte) :
  (forall x, SetResponseWithBlock.from_bytes b = Ok x ->
             0 <= SetResponseWithBlock.block_number x < 2 ^ 32) /\
  (forall x, SetResponseLastBlock.from_bytes b = Ok x ->
             0 <= SetResponseLastBlock.block_number x < 2 ^ 32).
Proof.
  assert (R : forall rest, 0 <= int_from_bytes (firstn 4 rest) < 2 ^ 32).
  { intros rest. pose proof (int_from_bytes_range (firstn 4 rest)) as H.
    assert (L : (length (firstn 4 rest) <= 4)%nat)
      by (rewrite length_firstn; lia).
    assert (256 ^ Z.of_nat (length (firstn 4 rest)) <= 256 ^ 4)
      by (apply Z.pow_le_mono_r; lia).
    change (256 ^ 4) with (2 ^ 32) in *. lia. }
  split; intros x H.
  - apply SetResponse_from_bytes_Ok_iff in H.
    destruct H as (i & rest & p & _ & _ & ->). apply R.
  - apply SetResponse_from_bytes_Ok_iff in H.
    destruct H as (i & v & rest & p & r & _ & _ & _ & ->). apply R.
Qed.

Lemma SetResponse_decoded_block_number_witness :
  0 <= SetResponseWithBlock.block_number
         (SetResponseWithBlock.Build (E := Reference.externals) xc1 4294967295)
  < 2 ^ 32.
Proof.
  apply (proj1 (SetResponse_decoded_block_number Reference.externals
                  [xc5; x02; xc1; xff; xff; xff; xff; xff; xff])).
  reflexivity.
Defined.

(** X20. Whatever value it is given, [SetRequestWithFirstBlock.to_bytes]
    writes, when it returns, the last-block byte 00 and the block number
    00 00 00 01, then the prefix that [encode_variable_integer] gives for
    the length of the data, then the data. *)
Theorem SetRequestWithFirstBlock_to_bytes_block (E : Externals)
  (x : SetRequestWithFirstBlock.t) (b : list byte) :
  SetRequestWithFirstBlock.to_bytes x = Ok b ->
  exists head pre,
    encode_variable_integer
      (Z.of_nat (length (SetRequestWithFirstBlock.data x))) = Ok pre /\
    b = xc1 :: x02 :: head ++ [x00; x00; x00; x00; x01] ++ pre ++
          SetRequestWithFirstBlock.data x.
Proof.
  unfold SetRequestWithFirstBlock.to_bytes. eval_append.
  unfold extend, append. change (bytes_of_int 0) with (Ok [x00]).
  destruct (InvokeIdAndPriority_to_bytes _) as [ib|]; [|discriminate].
  cbn [bind].
  destruct (CosemAttribute_to_bytes _) as [cb|]; [|discriminate].
  cbn [bind].
  destruct (SetRequestWithFirstBlock.access_selection x) as [a|];
    [destruct (AccessSelection_truthy a);
     [cbn [bind]; destruct (AccessSelection_to_bytes a) as [sb|];
      [|discriminate]|]|];
    cbn [bind];
    (destruct (encode_variable_integer _) as [pre|]; [|discriminate]);
    cbn [bind]; intros H; inversion H.
  - exists (ib ++ cb ++ x01 :: sb), pre. split; [reflexivity|list_eq].
  - exists (ib ++ cb ++ [x00]), pre. split; [reflexivity|list_eq].
  - exists (ib ++ cb ++ [x00]), pre. split; [reflexivity|list_eq].
Qed.

Lemma SetRequestWithFirstBlock_to_bytes_block_witness :
  let attr := [x00; x01; x01; x00; x01; x08; x00; xff; x02] in
  exists head pre,
    Reference.encode_variable_integer 2 = Ok pre /\
    xc1 :: x02 :: xc1 :: attr ++ x00 :: x00 :: [x00; x00; x00; x01; x02; x41; x42]
    = xc1 :: x02 :: head ++ [x00; x00; x00; x00; x01] ++ pre ++ [x41; x42].
Proof.
  intros attr.
  apply (SetRequestWithFirstBlock_to_bytes_block Reference.externals
           (SetRequestWithFirstBlock.Build (E := Reference.externals)
              attr [x41; x42] None xc1)).
  reflexivity.
Defined.
